(** * face_detector: the labelled-face gallery, the matcher and the live loops

    A shallow embedding of [app.js].  The page keeps its state in four
    global variables and a handful of DOM elements; every handler is
    embedded as a function on an explicit [State] record.  Suspension
    points ([await], [requestAnimationFrame]) split an async function
    into the part that runs up to the suspension and the part that is
    resumed later, on whatever the state is by then. *)

From Stdlib Require Import List String Ascii DecimalString Bool ZArith Lia Reals Lra.
Import ListNotations.
Open Scope string_scope.
Open Scope list_scope.

(** ** Data *)

(** A face descriptor is a vector of numbers (a [Float32Array] in the
    page); its components are read as real numbers. *)
Definition Descriptor : Type := list R.

(** A [MediaStream] handed out by [getUserMedia], known by an identifier. *)
Definition Stream : Type := nat.

(** [{ width: video.width, height: video.height }] *)
Record Size : Type := { width : Z; height : Z }.

(** One element of the sequence returned by
    [detectAllFaces(...).withFaceLandmarks().withFaceDescriptors()]. *)
Record Detection : Type := {
  detection_box : Z * Z * Z * Z;
  detection_descriptor : Descriptor
}.

(** An element of [faceDescriptors]: [{ name: faceName, descriptor: descriptor }]. *)
Record Face : Type := { name : string; descriptor : Descriptor }.

(** [new faceapi.LabeledFaceDescriptors(label, descriptors)] *)
Record LabeledFaceDescriptors : Type := {
  label : string;
  descriptors : list Descriptor
}.

(** [new faceapi.FaceMatcher(labeledDescriptors, distanceThreshold)] *)
Record FaceMatcher : Type := {
  labeledDescriptors : list LabeledFaceDescriptors;
  distanceThreshold : R
}.

(** The result of a match: a label (or the sentinel) and a distance. *)
Record MatchResult : Type := { mr_label : string; mr_distance : R }.

(** What has been painted on the canvas since it was last cleared. *)
Inductive Drawing : Type :=
| DrawDetections (resized : list Detection) (displaySize : Size)
| DrawFaceLandmarks (resized : list Detection) (displaySize : Size)
| DrawBox (d : Detection) (displaySize : Size) (result : MatchResult).

(** The children of the two panels, [faceDescriptorsDiv] and
    [recognizedFacesDiv].  A face box is a [div] of class [face-box]; it is
    kept as the markup the page assigns to its [innerHTML], since the
    elements the browser makes of that markup depend on the stored name,
    which is inserted as it is. *)
Inductive PanelItem : Type :=
| Heading (text : string)
| Paragraph (text : string)
| FaceBox (innerHTML : string)
| ResultLine (result : MatchResult).

(** The two self-rescheduling closures: [detect] inside [detectFaces] and
    [recognize] inside [recognizeFaces], each with the [displaySize] it
    captured. *)
Inductive Cycle : Type :=
| detect (displaySize : Size)
| recognize (displaySize : Size).

(** The calls into the face-api library that a cycle makes after its
    [await] are not guarded by any [try]: when one throws, the cycle ends
    there.  Whether [faceapi.resizeResults] and the calls of
    [faceMatcher.findBestMatch] return is given with the answer. *)
Record Library : Type := {
  resizeResults_returns : bool;
  findBestMatch_returns : bool
}.

(** What a suspended cycle is resumed with: the promise of
    [faceapi.detectAllFaces(...)] was rejected, or it was resolved with a
    sequence of detections. *)
Inductive Reply : Type :=
| rejected
| resolved (detections : list Detection) (lib : Library).

(** Every library call returns. *)
Definition sound : Library :=
  {| resizeResults_returns := true; findBestMatch_returns := true |}.

Definition answered (detections : list Detection) : Reply :=
  resolved detections sound.

Record State : Type := {
  (* global variables *)
  videoStream : option Stream;
  faceDescriptors : list Face;
  labeledFaceDescriptors : list LabeledFaceDescriptors;
  faceMatcher : option FaceMatcher;
  (* DOM elements *)
  video_srcObject : option Stream;
  video_size : Size;
  canvas_size : Size;
  canvas : list Drawing;
  startCameraBtn_disabled : bool;
  stopCameraBtn_disabled : bool;
  captureFaceBtn_disabled : bool;
  recognizerBtn_disabled : bool;
  faceDescriptorsDiv : list PanelItem;
  recognizedFacesDiv : list PanelItem;
  (* the host *)
  alerts : list string;
  console : list string;
  stoppedTracks : list Stream;
  frameCallbacks : list Cycle;   (* registered with requestAnimationFrame *)
  inFlight : list Cycle          (* suspended at [await faceapi.detectAllFaces] *)
}.

(** ** Field updates *)

Definition set_videoStream (v : option Stream) (s : State) : State :=
  {| videoStream := v; faceDescriptors := faceDescriptors s;
     labeledFaceDescriptors := labeledFaceDescriptors s; faceMatcher := faceMatcher s;
     video_srcObject := video_srcObject s; video_size := video_size s;
     canvas_size := canvas_size s; canvas := canvas s;
     startCameraBtn_disabled := startCameraBtn_disabled s;
     stopCameraBtn_disabled := stopCameraBtn_disabled s;
     captureFaceBtn_disabled := captureFaceBtn_disabled s;
     recognizerBtn_disabled := recognizerBtn_disabled s;
     faceDescriptorsDiv := faceDescriptorsDiv s; recognizedFacesDiv := recognizedFacesDiv s;
     alerts := alerts s; console := console s; stoppedTracks := stoppedTracks s;
     frameCallbacks := frameCallbacks s; inFlight := inFlight s |}.

Definition set_faceDescriptors (v : list Face) (s : State) : State :=
  {| videoStream := videoStream s; faceDescriptors := v;
     labeledFaceDescriptors := labeledFaceDescriptors s; faceMatcher := faceMatcher s;
     video_srcObject := video_srcObject s; video_size := video_size s;
     canvas_size := canvas_size s; canvas := canvas s;
     startCameraBtn_disabled := startCameraBtn_disabled s;
     stopCameraBtn_disabled := stopCameraBtn_disabled s;
     captureFaceBtn_disabled := captureFaceBtn_disabled s;
     recognizerBtn_disabled := recognizerBtn_disabled s;
     faceDescriptorsDiv := faceDescriptorsDiv s; recognizedFacesDiv := recognizedFacesDiv s;
     alerts := alerts s; console := console s; stoppedTracks := stoppedTracks s;
     frameCallbacks := frameCallbacks s; inFlight := inFlight s |}.

Definition set_labeledFaceDescriptors (v : list LabeledFaceDescriptors) (s : State) : State :=
  {| videoStream := videoStream s; faceDescriptors := faceDescriptors s;
     labeledFaceDescriptors := v; faceMatcher := faceMatcher s;
     video_srcObject := video_srcObject s; video_size := video_size s;
     canvas_size := canvas_size s; canvas := canvas s;
     startCameraBtn_disabled := startCameraBtn_disabled s;
     stopCameraBtn_disabled := stopCameraBtn_disabled s;
     captureFaceBtn_disabled := captureFaceBtn_disabled s;
     recognizerBtn_disabled := recognizerBtn_disabled s;
     faceDescriptorsDiv := faceDescriptorsDiv s; recognizedFacesDiv := recognizedFacesDiv s;
     alerts := alerts s; console := console s; stoppedTracks := stoppedTracks s;
     frameCallbacks := frameCallbacks s; inFlight := inFlight s |}.

Definition set_faceMatcher (v : option FaceMatcher) (s : State) : State :=
  {| videoStream := videoStream s; faceDescriptors := faceDescriptors s;
     labeledFaceDescriptors := labeledFaceDescriptors s; faceMatcher := v;
     video_srcObject := video_srcObject s; video_size := video_size s;
     canvas_size := canvas_size s; canvas := canvas s;
     startCameraBtn_disabled := startCameraBtn_disabled s;
     stopCameraBtn_disabled := stopCameraBtn_disabled s;
     captureFaceBtn_disabled := captureFaceBtn_disabled s;
     recognizerBtn_disabled := recognizerBtn_disabled s;
     faceDescriptorsDiv := faceDescriptorsDiv s; recognizedFacesDiv := recognizedFacesDiv s;
     alerts := alerts s; console := console s; stoppedTracks := stoppedTracks s;
     frameCallbacks := frameCallbacks s; inFlight := inFlight s |}.

Definition set_video_srcObject (v : option Stream) (s : State) : State :=
  {| videoStream := videoStream s; faceDescriptors := faceDescriptors s;
     labeledFaceDescriptors := labeledFaceDescriptors s; faceMatcher := faceMatcher s;
     video_srcObject := v; video_size := video_size s;
     canvas_size := canvas_size s; canvas := canvas s;
     startCameraBtn_disabled := startCameraBtn_disabled s;
     stopCameraBtn_disabled := stopCameraBtn_disabled s;
     captureFaceBtn_disabled := captureFaceBtn_disabled s;
     recognizerBtn_disabled := recognizerBtn_disabled s;
     faceDescriptorsDiv := faceDescriptorsDiv s; recognizedFacesDiv := recognizedFacesDiv s;
     alerts := alerts s; console := console s; stoppedTracks := stoppedTracks s;
     frameCallbacks := frameCallbacks s; inFlight := inFlight s |}.

Definition set_canvas_size (v : Size) (s : State) : State :=
  {| videoStream := videoStream s; faceDescriptors := faceDescriptors s;
     labeledFaceDescriptors := labeledFaceDescriptors s; faceMatcher := faceMatcher s;
     video_srcObject := video_srcObject s; video_size := video_size s;
     canvas_size := v; canvas := canvas s;
     startCameraBtn_disabled := startCameraBtn_disabled s;
     stopCameraBtn_disabled := stopCameraBtn_disabled s;
     captureFaceBtn_disabled := captureFaceBtn_disabled s;
     recognizerBtn_disabled := recognizerBtn_disabled s;
     faceDescriptorsDiv := faceDescriptorsDiv s; recognizedFacesDiv := recognizedFacesDiv s;
     alerts := alerts s; console := console s; stoppedTracks := stoppedTracks s;
     frameCallbacks := frameCallbacks s; inFlight := inFlight s |}.

Definition set_canvas (v : list Drawing) (s : State) : State :=
  {| videoStream := videoStream s; faceDescriptors := faceDescriptors s;
     labeledFaceDescriptors := labeledFaceDescriptors s; faceMatcher := faceMatcher s;
     video_srcObject := video_srcObject s; video_size := video_size s;
     canvas_size := canvas_size s; canvas := v;
     startCameraBtn_disabled := startCameraBtn_disabled s;
     stopCameraBtn_disabled := stopCameraBtn_disabled s;
     captureFaceBtn_disabled := captureFaceBtn_disabled s;
     recognizerBtn_disabled := recognizerBtn_disabled s;
     faceDescriptorsDiv := faceDescriptorsDiv s; recognizedFacesDiv := recognizedFacesDiv s;
     alerts := alerts s; console := console s; stoppedTracks := stoppedTracks s;
     frameCallbacks := frameCallbacks s; inFlight := inFlight s |}.

Definition set_startCameraBtn_disabled (v : bool) (s : State) : State :=
  {| videoStream := videoStream s; faceDescriptors := faceDescriptors s;
     labeledFaceDescriptors := labeledFaceDescriptors s; faceMatcher := faceMatcher s;
     video_srcObject := video_srcObject s; video_size := video_size s;
     canvas_size := canvas_size s; canvas := canvas s;
     startCameraBtn_disabled := v;
     stopCameraBtn_disabled := stopCameraBtn_disabled s;
     captureFaceBtn_disabled := captureFaceBtn_disabled s;
     recognizerBtn_disabled := recognizerBtn_disabled s;
     faceDescriptorsDiv := faceDescriptorsDiv s; recognizedFacesDiv := recognizedFacesDiv s;
     alerts := alerts s; console := console s; stoppedTracks := stoppedTracks s;
     frameCallbacks := frameCallbacks s; inFlight := inFlight s |}.

Definition set_stopCameraBtn_disabled (v : bool) (s : State) : State :=
  {| videoStream := videoStream s; faceDescriptors := faceDescriptors s;
     labeledFaceDescriptors := labeledFaceDescriptors s; faceMatcher := faceMatcher s;
     video_srcObject := video_srcObject s; video_size := video_size s;
     canvas_size := canvas_size s; canvas := canvas s;
     startCameraBtn_disabled := startCameraBtn_disabled s;
     stopCameraBtn_disabled := v;
     captureFaceBtn_disabled := captureFaceBtn_disabled s;
     recognizerBtn_disabled := recognizerBtn_disabled s;
     faceDescriptorsDiv := faceDescriptorsDiv s; recognizedFacesDiv := recognizedFacesDiv s;
     alerts := alerts s; console := console s; stoppedTracks := stoppedTracks s;
     frameCallbacks := frameCallbacks s; inFlight := inFlight s |}.

Definition set_captureFaceBtn_disabled (v : bool) (s : State) : State :=
  {| videoStream := videoStream s; faceDescriptors := faceDescriptors s;
     labeledFaceDescriptors := labeledFaceDescriptors s; faceMatcher := faceMatcher s;
     video_srcObject := video_srcObject s; video_size := video_size s;
     canvas_size := canvas_size s; canvas := canvas s;
     startCameraBtn_disabled := startCameraBtn_disabled s;
     stopCameraBtn_disabled := stopCameraBtn_disabled s;
     captureFaceBtn_disabled := v;
     recognizerBtn_disabled := recognizerBtn_disabled s;
     faceDescriptorsDiv := faceDescriptorsDiv s; recognizedFacesDiv := recognizedFacesDiv s;
     alerts := alerts s; console := console s; stoppedTracks := stoppedTracks s;
     frameCallbacks := frameCallbacks s; inFlight := inFlight s |}.

Definition set_recognizerBtn_disabled (v : bool) (s : State) : State :=
  {| videoStream := videoStream s; faceDescriptors := faceDescriptors s;
     labeledFaceDescriptors := labeledFaceDescriptors s; faceMatcher := faceMatcher s;
     video_srcObject := video_srcObject s; video_size := video_size s;
     canvas_size := canvas_size s; canvas := canvas s;
     startCameraBtn_disabled := startCameraBtn_disabled s;
     stopCameraBtn_disabled := stopCameraBtn_disabled s;
     captureFaceBtn_disabled := captureFaceBtn_disabled s;
     recognizerBtn_disabled := v;
     faceDescriptorsDiv := faceDescriptorsDiv s; recognizedFacesDiv := recognizedFacesDiv s;
     alerts := alerts s; console := console s; stoppedTracks := stoppedTracks s;
     frameCallbacks := frameCallbacks s; inFlight := inFlight s |}.

Definition set_faceDescriptorsDiv (v : list PanelItem) (s : State) : State :=
  {| videoStream := videoStream s; faceDescriptors := faceDescriptors s;
     labeledFaceDescriptors := labeledFaceDescriptors s; faceMatcher := faceMatcher s;
     video_srcObject := video_srcObject s; video_size := video_size s;
     canvas_size := canvas_size s; canvas := canvas s;
     startCameraBtn_disabled := startCameraBtn_disabled s;
     stopCameraBtn_disabled := stopCameraBtn_disabled s;
     captureFaceBtn_disabled := captureFaceBtn_disabled s;
     recognizerBtn_disabled := recognizerBtn_disabled s;
     faceDescriptorsDiv := v; recognizedFacesDiv := recognizedFacesDiv s;
     alerts := alerts s; console := console s; stoppedTracks := stoppedTracks s;
     frameCallbacks := frameCallbacks s; inFlight := inFlight s |}.

Definition set_recognizedFacesDiv (v : list PanelItem) (s : State) : State :=
  {| videoStream := videoStream s; faceDescriptors := faceDescriptors s;
     labeledFaceDescriptors := labeledFaceDescriptors s; faceMatcher := faceMatcher s;
     video_srcObject := video_srcObject s; video_size := video_size s;
     canvas_size := canvas_size s; canvas := canvas s;
     startCameraBtn_disabled := startCameraBtn_disabled s;
     stopCameraBtn_disabled := stopCameraBtn_disabled s;
     captureFaceBtn_disabled := captureFaceBtn_disabled s;
     recognizerBtn_disabled := recognizerBtn_disabled s;
     faceDescriptorsDiv := faceDescriptorsDiv s; recognizedFacesDiv := v;
     alerts := alerts s; console := console s; stoppedTracks := stoppedTracks s;
     frameCallbacks := frameCallbacks s; inFlight := inFlight s |}.

Definition set_alerts (v : list string) (s : State) : State :=
  {| videoStream := videoStream s; faceDescriptors := faceDescriptors s;
     labeledFaceDescriptors := labeledFaceDescriptors s; faceMatcher := faceMatcher s;
     video_srcObject := video_srcObject s; video_size := video_size s;
     canvas_size := canvas_size s; canvas := canvas s;
     startCameraBtn_disabled := startCameraBtn_disabled s;
     stopCameraBtn_disabled := stopCameraBtn_disabled s;
     captureFaceBtn_disabled := captureFaceBtn_disabled s;
     recognizerBtn_disabled := recognizerBtn_disabled s;
     faceDescriptorsDiv := faceDescriptorsDiv s; recognizedFacesDiv := recognizedFacesDiv s;
     alerts := v; console := console s; stoppedTracks := stoppedTracks s;
     frameCallbacks := frameCallbacks s; inFlight := inFlight s |}.

Definition set_console (v : list string) (s : State) : State :=
  {| videoStream := videoStream s; faceDescriptors := faceDescriptors s;
     labeledFaceDescriptors := labeledFaceDescriptors s; faceMatcher := faceMatcher s;
     video_srcObject := video_srcObject s; video_size := video_size s;
     canvas_size := canvas_size s; canvas := canvas s;
     startCameraBtn_disabled := startCameraBtn_disabled s;
     stopCameraBtn_disabled := stopCameraBtn_disabled s;
     captureFaceBtn_disabled := captureFaceBtn_disabled s;
     recognizerBtn_disabled := recognizerBtn_disabled s;
     faceDescriptorsDiv := faceDescriptorsDiv s; recognizedFacesDiv := recognizedFacesDiv s;
     alerts := alerts s; console := v; stoppedTracks := stoppedTracks s;
     frameCallbacks := frameCallbacks s; inFlight := inFlight s |}.

Definition set_stoppedTracks (v : list Stream) (s : State) : State :=
  {| videoStream := videoStream s; faceDescriptors := faceDescriptors s;
     labeledFaceDescriptors := labeledFaceDescriptors s; faceMatcher := faceMatcher s;
     video_srcObject := video_srcObject s; video_size := video_size s;
     canvas_size := canvas_size s; canvas := canvas s;
     startCameraBtn_disabled := startCameraBtn_disabled s;
     stopCameraBtn_disabled := stopCameraBtn_disabled s;
     captureFaceBtn_disabled := captureFaceBtn_disabled s;
     recognizerBtn_disabled := recognizerBtn_disabled s;
     faceDescriptorsDiv := faceDescriptorsDiv s; recognizedFacesDiv := recognizedFacesDiv s;
     alerts := alerts s; console := console s; stoppedTracks := v;
     frameCallbacks := frameCallbacks s; inFlight := inFlight s |}.

Definition set_frameCallbacks (v : list Cycle) (s : State) : State :=
  {| videoStream := videoStream s; faceDescriptors := faceDescriptors s;
     labeledFaceDescriptors := labeledFaceDescriptors s; faceMatcher := faceMatcher s;
     video_srcObject := video_srcObject s; video_size := video_size s;
     canvas_size := canvas_size s; canvas := canvas s;
     startCameraBtn_disabled := startCameraBtn_disabled s;
     stopCameraBtn_disabled := stopCameraBtn_disabled s;
     captureFaceBtn_disabled := captureFaceBtn_disabled s;
     recognizerBtn_disabled := recognizerBtn_disabled s;
     faceDescriptorsDiv := faceDescriptorsDiv s; recognizedFacesDiv := recognizedFacesDiv s;
     alerts := alerts s; console := console s; stoppedTracks := stoppedTracks s;
     frameCallbacks := v; inFlight := inFlight s |}.

Definition set_inFlight (v : list Cycle) (s : State) : State :=
  {| videoStream := videoStream s; faceDescriptors := faceDescriptors s;
     labeledFaceDescriptors := labeledFaceDescriptors s; faceMatcher := faceMatcher s;
     video_srcObject := video_srcObject s; video_size := video_size s;
     canvas_size := canvas_size s; canvas := canvas s;
     startCameraBtn_disabled := startCameraBtn_disabled s;
     stopCameraBtn_disabled := stopCameraBtn_disabled s;
     captureFaceBtn_disabled := captureFaceBtn_disabled s;
     recognizerBtn_disabled := recognizerBtn_disabled s;
     faceDescriptorsDiv := faceDescriptorsDiv s; recognizedFacesDiv := recognizedFacesDiv s;
     alerts := alerts s; console := console s; stoppedTracks := stoppedTracks s;
     frameCallbacks := frameCallbacks s; inFlight := v |}.

(** ** The matcher *)

(** Modelled from the spec: [faceapi.euclideanDistance] belongs to the
    face-api library, which the page loads and which is not part of
    [app.js].  The spec fixes the metric as "Euclidean (L2) over the
    descriptor vector": the square root of the sum of the squared
    component differences. *)
Fixpoint sumSquaredDiff (a b : Descriptor) : R :=
  match a, b with
  | x :: a', y :: b' => (x - y) * (x - y) + sumSquaredDiff a' b'
  | _, _ => 0
  end.

Definition euclideanDistance (a b : Descriptor) : R := sqrt (sumSquaredDiff a b).

(** The sentinel label. *)
Definition unknown : string := "unknown".

(** Modelled from the spec: the distance "from the query to every gallery
    descriptor", in gallery order, each with the label it is stored under. *)
Definition candidates (m : FaceMatcher) (queryDescriptor : Descriptor) : list MatchResult :=
  flat_map
    (fun l => map (fun d => {| mr_label := label l;
                               mr_distance := euclideanDistance queryDescriptor d |})
                  (descriptors l))
    (labeledDescriptors m).

(** Modelled from the spec: a linear scan in which "first entry in gallery
    order wins ties": a later candidate replaces the best one only when it
    is strictly closer. *)
Definition closer (best cur : MatchResult) : MatchResult :=
  if Rlt_dec (mr_distance cur) (mr_distance best) then cur else best.

Definition closest (cs : list MatchResult) : option MatchResult :=
  match cs with
  | [] => None
  | c :: cs' => Some (fold_left closer cs' c)
  end.

(** Modelled from the spec: [FaceMatcher.findBestMatch] of the face-api
    library (absent from [app.js], which only calls it).  It "returns the
    GalleryEntry label with minimum distance if that minimum is <= a fixed
    threshold; otherwise returns the sentinel label".  On an empty gallery
    the spec fixes the label only; the distance reported there is 0. *)
Definition findBestMatch (m : FaceMatcher) (queryDescriptor : Descriptor) : MatchResult :=
  match closest (candidates m queryDescriptor) with
  | None => {| mr_label := unknown; mr_distance := 0 |}
  | Some best =>
      if Rle_dec (mr_distance best) (distanceThreshold m) then best
      else {| mr_label := unknown; mr_distance := mr_distance best |}
  end.

(** ** Host and library effects *)

Definition alert (msg : string) (s : State) : State :=
  set_alerts (alerts s ++ [msg]) s.

Definition console_log (msg : string) (s : State) : State :=
  set_console (console s ++ [msg]) s.

(** [context.clearRect(0, 0, canvas.width, canvas.height)] *)
Definition clearRect (s : State) : State := set_canvas [] s.

Definition draw (d : Drawing) (s : State) : State :=
  set_canvas (canvas s ++ [d]) s.

(** [faceapi.matchDimensions(canvas, displaySize)] gives the canvas the
    display size; assigning a canvas its width or height resets its bitmap. *)
Definition matchDimensions (displaySize : Size) (s : State) : State :=
  set_canvas [] (set_canvas_size displaySize s).

Definition requestAnimationFrame (c : Cycle) (s : State) : State :=
  set_frameCallbacks (frameCallbacks s ++ [c]) s.

(** ** The per-frame cycles *)

(** [detect()] and [recognize()] up to their [await]: the liveness check
    [if (!videoStream) return;], then the call of the detector, on which
    the cycle is suspended. *)
Definition cycle_begin (c : Cycle) (s : State) : State :=
  match videoStream s with
  | None => s
  | Some _ => set_inFlight (inFlight s ++ [c]) s
  end.

(** [resizedDetections.map(d => faceMatcher.findBestMatch(d.descriptor))];
    with [faceMatcher] still [null] the first call throws, and nothing is
    called on an empty sequence. *)
Definition matchAll (m : option FaceMatcher) (detections : list Detection)
  : option (list MatchResult) :=
  match detections, m with
  | [], _ => Some []
  | _ :: _, Some fm =>
      Some (map (fun d => findBestMatch fm (detection_descriptor d)) detections)
  | _ :: _, None => None
  end.

(** The rest of [detect()], from [faceapi.resizeResults] on. *)
Definition detect_rest (displaySize : Size) (detections : list Detection)
  (lib : Library) (s : State) : State :=
  if resizeResults_returns lib then
    let s := clearRect s in
    let s := draw (DrawDetections detections displaySize) s in
    let s := draw (DrawFaceLandmarks detections displaySize) s in
    requestAnimationFrame (detect displaySize) s
  else s.   (* thrown before [clearRect]: nothing is drawn or rescheduled *)

(** The rest of [recognize()], from [faceapi.resizeResults] on.  An
    exception in the matching, from the library or for a [faceMatcher] that
    is still [null], comes after [clearRect] and ends the cycle there. *)
Definition recognize_rest (displaySize : Size) (detections : list Detection)
  (lib : Library) (s : State) : State :=
  if resizeResults_returns lib then
    let s := clearRect s in
    match (if findBestMatch_returns lib then matchAll (faceMatcher s) detections
           else None) with
    | None => s   (* the exception ends the cycle: nothing is rescheduled *)
    | Some results =>
        let s := fold_left (fun s dr => draw (DrawBox (fst dr) displaySize (snd dr)) s)
                           (combine detections results) s in
        let s := set_recognizedFacesDiv
                   (Heading "Recognition Results:" ::
                    match results with
                    | [] => [Paragraph "No faces detected."]
                    | _ :: _ => map ResultLine results
                    end) s in
        requestAnimationFrame (recognize displaySize) s
    end
  else s.

(** The rest of a cycle, run when the awaited promise is settled.  A
    rejected promise ends the cycle at the [await]: nothing of the body
    runs.  The drawing calls on the canvas are taken to return. *)
Definition cycle_resume (c : Cycle) (reply : Reply) (s : State) : State :=
  match reply with
  | rejected => s
  | resolved detections lib =>
      match c with
      | detect displaySize => detect_rest displaySize detections lib s
      | recognize displaySize => recognize_rest displaySize detections lib s
      end
  end.

(** ** The handlers *)

(** [loadModels], on whether the three [loadFromUri] calls succeeded. *)
Definition loadModels (loaded : bool) (s : State) : State :=
  if loaded then console_log "Models loaded successfully" s
  else alert "Error loading face detection models. Please check console for details."
         (console_log "Error loading models:" s).

Definition init (loaded : bool) (s : State) : State :=
  console_log "App initialized"
    (loadModels loaded (console_log "Initializing face recognition app..." s)).

Definition detectFaces (s : State) : State :=
  match videoStream s with
  | None => s
  | Some _ =>
      let displaySize := video_size s in
      let s := matchDimensions displaySize s in
      cycle_begin (detect displaySize) s
  end.

(** [startCamera], resumed with the outcome of [getUserMedia]: a stream, or
    nothing when the promise was rejected. *)
Definition startCamera (acquired : option Stream) (s : State) : State :=
  match acquired with
  | Some stream =>
      let s := set_videoStream (Some stream) s in
      let s := set_video_srcObject (Some stream) s in
      let s := set_startCameraBtn_disabled true s in
      let s := set_stopCameraBtn_disabled false s in
      let s := set_captureFaceBtn_disabled false s in
      detectFaces s
  | None =>
      alert "Could not access the camera. Please ensure you have granted permissions."
        (console_log "Error accessing camera:" s)
  end.

Definition stopCamera (s : State) : State :=
  match videoStream s with
  | Some stream =>
      let s := set_stoppedTracks (stoppedTracks s ++ [stream]) s in
      let s := set_video_srcObject None s in
      let s := set_videoStream None s in
      let s := set_startCameraBtn_disabled false s in
      let s := set_stopCameraBtn_disabled true s in
      let s := set_captureFaceBtn_disabled true s in
      let s := set_recognizerBtn_disabled true s in
      clearRect s
  | None => s
  end.

Definition newline : string := String (ascii_of_nat 10) EmptyString.
Definition dquote : string := String (ascii_of_nat 34) EmptyString.

(** The text of [${index}] for an index of the gallery. *)
Definition decimal (n : nat) : string := NilEmpty.string_of_uint (Nat.to_uint n).

(** The template literal assigned to [faceBox.innerHTML], line for line,
    with [face.name] and [index] put in as they are: the name is not
    escaped. *)
Definition faceBoxHTML (faceName : string) (index : nat) : string :=
  String.concat EmptyString
    [newline;
     "            <div class="; dquote; "face-info"; dquote; ">"; newline;
     "                <strong>"; faceName; "</strong><br>"; newline;
     "                <button onclick="; dquote; "deleteFace("; decimal index; ")";
     dquote; ">Delete</button>"; newline;
     "            </div>"; newline;
     "        "].

(** The markup around the name: what comes before it, and what comes after
    it in the box of a given index. *)
Definition markupBeforeName : string :=
  String.concat EmptyString
    [newline;
     "            <div class="; dquote; "face-info"; dquote; ">"; newline;
     "                <strong>"].

Definition markupAfterName (index : nat) : string :=
  String.concat EmptyString
    ["</strong><br>"; newline;
     "                <button onclick="; dquote; "deleteFace("; decimal index; ")";
     dquote; ">Delete</button>"; newline;
     "            </div>"; newline;
     "        "].

(** [faceDescriptors.forEach((face, index) => ...)] *)
Fixpoint faceBoxes (index : nat) (faces : list Face) : list PanelItem :=
  match faces with
  | [] => []
  | face :: rest => FaceBox (faceBoxHTML (name face) index) :: faceBoxes (S index) rest
  end.

Definition updateFaceDescriptorsDisplay (s : State) : State :=
  set_faceDescriptorsDiv
    (Heading "Stored Faces:" ::
     match faceDescriptors s with
     | [] => [Paragraph "No faces stored yet."]
     | _ :: _ => faceBoxes 0 (faceDescriptors s)
     end) s.

(** [captureFace] after [await faceapi.detectAllFaces(...)], with the name
    the user typed. *)
Definition captureFace_resume (faceName : string) (detections : list Detection)
  (s : State) : State :=
  match detections with
  | [] => alert "No faces detected!" s
  | first :: _ =>
      let s := set_faceDescriptors
                 (faceDescriptors s ++
                  [{| name := faceName; descriptor := detection_descriptor first |}]) s in
      let s := updateFaceDescriptorsDisplay s in
      set_recognizerBtn_disabled (Nat.eqb (List.length (faceDescriptors s)) 0) s
  end.

(** [captureFace], on what [prompt] returned ([None] when the dialog was
    cancelled) and what the detector found.  [!faceName] holds of [null] and
    of the empty string only. *)
Definition captureFace (faceName : option string) (detections : list Detection)
  (s : State) : State :=
  match faceName with
  | None => s
  | Some EmptyString => s
  | Some nm => captureFace_resume nm detections s
  end.

(** [Array.prototype.splice(index, 1)] on an integer [index]: a negative
    start is taken from the end, and the start is clamped to the array. *)
Definition splice_start (len : nat) (index : Z) : nat :=
  if (index <? 0)%Z then Z.to_nat (Z.max (Z.of_nat len + index) 0)
  else Z.to_nat (Z.min index (Z.of_nat len)).

Definition splice1 {A : Type} (index : Z) (l : list A) : list A :=
  let start := splice_start (List.length l) index in
  firstn start l ++ skipn (S start) l.

Definition deleteFace (index : Z) (s : State) : State :=
  let s := set_faceDescriptors (splice1 index (faceDescriptors s)) s in
  let s := updateFaceDescriptorsDisplay s in
  set_recognizerBtn_disabled (Nat.eqb (List.length (faceDescriptors s)) 0) s.

(** [new faceapi.LabeledFaceDescriptors(face.name, [face.descriptor])] over
    the gallery. *)
Definition labelFaces (faces : list Face) : list LabeledFaceDescriptors :=
  map (fun face => {| label := name face; descriptors := [descriptor face] |}) faces.

Definition recognizeFaces (s : State) : State :=
  match faceDescriptors s with
  | [] => alert "No faces stored for recognition!" s
  | _ :: _ =>
      let s := set_labeledFaceDescriptors (labelFaces (faceDescriptors s)) s in
      let s := set_faceMatcher
                 (Some {| labeledDescriptors := labeledFaceDescriptors s;
                          distanceThreshold := 6 / 10 |}) s in
      let displaySize := video_size s in
      let s := matchDimensions displaySize s in
      cycle_begin (recognize displaySize) s
  end.

(** ** The page as a transition system *)

(** What can happen to the page: the four buttons, [deleteFace] (called from
    the Delete buttons of the gallery panel), the browser running the
    registered frame callbacks, and the promise of the [k]-th suspended
    cycle being settled. *)
Inductive Event : Type :=
| StartCapture (acquired : option Stream)
| StopCapture
| CaptureAndLabel (faceName : option string) (detections : list Detection)
| DeleteEntry (index : Z)
| StartRecognition
| AnimationFrame
| DetectorReply (k : nat) (reply : Reply).

(** The browser takes the registered callbacks and calls each one; a
    callback registered meanwhile waits for the next frame. *)
Definition animationFrame (s : State) : State :=
  fold_left (fun s c => cycle_begin c s) (frameCallbacks s) (set_frameCallbacks [] s).

Definition detectorReply (k : nat) (reply : Reply) (s : State) : State :=
  match nth_error (inFlight s) k with
  | None => s
  | Some c =>
      cycle_resume c reply
        (set_inFlight (firstn k (inFlight s) ++ skipn (S k) (inFlight s)) s)
  end.

Definition handle (e : Event) (s : State) : State :=
  match e with
  | StartCapture acquired => startCamera acquired s
  | StopCapture => stopCamera s
  | CaptureAndLabel faceName detections => captureFace faceName detections s
  | DeleteEntry index => deleteFace index s
  | StartRecognition => recognizeFaces s
  | AnimationFrame => animationFrame s
  | DetectorReply k reply => detectorReply k reply s
  end.

Definition run (es : list Event) (s : State) : State :=
  fold_left (fun s e => handle e s) es s.

(** The page when the script has been loaded: the globals as initialised
    at the top of [app.js]; the size of the video and the [disabled]
    attributes of the four buttons are those of the HTML page. *)
Definition loaded_page (size : Size) (startB stopB captureB recognizeB : bool) : State :=
  {| videoStream := None; faceDescriptors := [];
     labeledFaceDescriptors := []; faceMatcher := None;
     video_srcObject := None; video_size := size;
     canvas_size := size; canvas := [];
     startCameraBtn_disabled := startB;
     stopCameraBtn_disabled := stopB;
     captureFaceBtn_disabled := captureB;
     recognizerBtn_disabled := recognizeB;
     faceDescriptorsDiv := []; recognizedFacesDiv := [];
     alerts := []; console := []; stoppedTracks := [];
     frameCallbacks := []; inFlight := [] |}.

(** The loop mode of the spec is not a variable of the page; it is read off
    the stream and the live cycles. *)
Inductive LoopMode : Type := Idle | Detecting | Recognizing.

Definition is_recognize (c : Cycle) : bool :=
  match c with recognize _ => true | detect _ => false end.

Definition mode (s : State) : LoopMode :=
  match videoStream s with
  | None => Idle
  | Some _ =>
      if existsb is_recognize (frameCallbacks s ++ inFlight s) then Recognizing
      else Detecting
  end.

(** ** The gallery contract in the words of the spec *)

Inductive GalleryError : Type := InvalidLabel | NoDescriptor | IndexOutOfRange.

Definition is_whitespace (c : ascii) : bool :=
  match nat_of_ascii c with
  | 9 | 10 | 11 | 12 | 13 | 32 => true
  | _ => false
  end.

(** "empty/whitespace" *)
Definition blank (l : string) : bool :=
  forallb is_whitespace (list_ascii_of_string l).

(** "[add(label, descriptor)]: appends a new entry; fails with
    [InvalidLabel] if label is empty/whitespace; fails with [NoDescriptor]
    if no descriptor is supplied." *)
Definition spec_add (l : string) (d : option Descriptor) (g : list Face)
  : GalleryError + list Face :=
  if blank l then inl InvalidLabel
  else match d with
       | None => inl NoDescriptor
       | Some d => inr (g ++ [{| name := l; descriptor := d |}])
       end.

(** "[delete(index)]: removes the entry at the given position; fails with
    [IndexOutOfRange] if index is not within current bounds; shifts
    subsequent entries." *)
Definition spec_delete (index : Z) (g : list Face) : GalleryError + list Face :=
  if ((0 <=? index) && (index <? Z.of_nat (List.length g)))%Z
  then inr (firstn (Z.to_nat index) g ++ skipn (S (Z.to_nat index)) g)
  else inl IndexOutOfRange.

(** A handler has no result; the page reports a refused action with
    [alert], and none of its handlers throws on its own.  An action was
    refused when the user was told and the gallery is as it was. *)
Definition refused (before after : State) : Prop :=
  alerts after <> alerts before /\ faceDescriptors after = faceDescriptors before.

(** The capture-and-label action against [spec_add]. *)
Definition capture_meets_spec (faceName : string) (detections : list Detection)
  (s : State) : Prop :=
  let s' := captureFace (Some faceName) detections s in
  match spec_add faceName (option_map detection_descriptor (hd_error detections))
                 (faceDescriptors s) with
  | inr g' => faceDescriptors s' = g'
  | inl InvalidLabel => faceDescriptors s' = faceDescriptors s
  | inl _ => refused s s'
  end.

(** The delete action against [spec_delete]. *)
Definition delete_meets_spec (index : Z) (s : State) : Prop :=
  let s' := deleteFace index s in
  match spec_delete index (faceDescriptors s) with
  | inr g' => faceDescriptors s' = g'
  | inl _ => refused s s'
  end.

(** ** Sample data *)

Definition vga : Size := {| width := 640; height := 480 |}.

Definition page0 : State := loaded_page vga false true true true.

Definition dA : Descriptor := [0%R; 0%R].
Definition dB : Descriptor := [1%R; 0%R].
Definition dC : Descriptor := [0%R; 2%R].

Definition seen (d : Descriptor) : Detection :=
  {| detection_box := (10, 20, 100, 100)%Z; detection_descriptor := d |}.

Definition face (n : string) (d : Descriptor) : Face := {| name := n; descriptor := d |}.

Definition galleryABC : list Face := [face "A" dA; face "B" dB; face "C" dC].

(** The page with the camera on. *)
Definition pageLive : State := run [StartCapture (Some 7)] page0.

(** The page after three faces have been captured and named. *)
Definition pageABC : State :=
  run [CaptureAndLabel (Some "A") [seen dA];
       CaptureAndLabel (Some "B") [seen dB];
       CaptureAndLabel (Some "C") [seen dC]] pageLive.

(** ** Invariants and measures *)

(** No stored entry has the empty string as its name. *)
Definition labels_nonempty (s : State) : Prop :=
  Forall (fun f => name f <> "") (faceDescriptors s).

(** The drawings [recognize] makes for its results. *)
Definition resultBoxes (displaySize : Size) (boxes : list (Detection * MatchResult))
  : list Drawing :=
  map (fun dr => DrawBox (fst dr) displaySize (snd dr)) boxes.

(** The matcher [recognizeFaces] builds over a gallery: one labelled
    descriptor per entry, in gallery order, and the threshold 0.6. *)
Definition matcherOf (g : list Face) : FaceMatcher :=
  {| labeledDescriptors := labelFaces g; distanceThreshold := 6 / 10 |}.

(** The gallery panel shows the gallery: it is what
    [updateFaceDescriptorsDisplay] would draw now. *)
Definition panel_in_sync (s : State) : Prop :=
  faceDescriptorsDiv s = faceDescriptorsDiv (updateFaceDescriptorsDisplay s).

Definition isSome {A : Type} (o : option A) : bool :=
  match o with Some _ => true | None => false end.

(** The video element and the three camera buttons agree with the stream. *)
Definition camera_consistent (s : State) : Prop :=
  video_srcObject s = videoStream s /\
  startCameraBtn_disabled s = isSome (videoStream s) /\
  stopCameraBtn_disabled s = negb (isSome (videoStream s)) /\
  captureFaceBtn_disabled s = negb (isSome (videoStream s)).

(** The cycles that are alive: registered for the next frame or suspended
    on the detector. *)
Definition cycles (s : State) : list Cycle := frameCallbacks s ++ inFlight s.

Definition live (s : State) : nat :=
  List.length (frameCallbacks s) + List.length (inFlight s).

(** Either no matcher has been built and no [recognize] cycle is alive, or
    the matcher is the one of a non-empty gallery and
    [labeledFaceDescriptors] holds its labelled descriptors. *)
Definition matcher_ok (s : State) : Prop :=
  match faceMatcher s with
  | None => existsb is_recognize (cycles s) = false
  | Some m =>
      (exists g, g <> [] /\ m = matcherOf g) /\
      labeledFaceDescriptors s = labeledDescriptors m
  end.

(** The events that can change the gallery. *)
Definition edits_gallery (e : Event) : bool :=
  match e with
  | CaptureAndLabel _ _ | DeleteEntry _ => true
  | _ => false
  end.

(** The events the user does not cause: a frame, an answer of the detector. *)
Definition passive (e : Event) : bool :=
  match e with
  | AnimationFrame | DetectorReply _ _ => true
  | _ => false
  end.

(** The events in which every library call of the resumed cycle returns. *)
Definition faultless (e : Event) : bool :=
  match e with
  | DetectorReply _ rejected => false
  | DetectorReply _ (resolved _ lib) =>
      resizeResults_returns lib && findBestMatch_returns lib
  | _ => true
  end.

(** Whether a resumed cycle gets as far as [clearRect]. *)
Definition reaches_clearRect (reply : Reply) : bool :=
  match reply with
  | rejected => false
  | resolved _ lib => resizeResults_returns lib
  end.


(** * Properties *)

(** ** Starting recognition on an empty gallery *)

(** C2.  With an empty gallery, [recognizeFaces] only raises the alert: the
    resulting state is the old one with the warning added, so the loop
    mode, the matcher, the labelled descriptors and the sets of scheduled
    and suspended cycles are what they were. *)
Theorem recognizeFaces_empty_gallery (s : State) :
  faceDescriptors s = [] ->
  let s' := recognizeFaces s in
  s' = alert "No faces stored for recognition!" s /\
  alerts s' = alerts s ++ ["No faces stored for recognition!"] /\
  mode s' = mode s /\
  faceMatcher s' = faceMatcher s /\
  labeledFaceDescriptors s' = labeledFaceDescriptors s /\
  frameCallbacks s' = frameCallbacks s /\
  inFlight s' = inFlight s /\
  canvas s' = canvas s.
Proof.
  intros Hempty s'. subst s'. unfold recognizeFaces. rewrite Hempty.
  repeat split.
Qed.

Lemma recognizeFaces_empty_gallery_witness :
  faceDescriptors page0 = [] /\
  mode (recognizeFaces page0) = Idle /\
  faceMatcher (recognizeFaces page0) = None.
Proof.
  assert (H : faceDescriptors page0 = []) by reflexivity.
  destruct (recognizeFaces_empty_gallery page0 H) as (_ & _ & Hm & Hf & _).
  split; [exact H|]. split; [rewrite Hm | rewrite Hf]; reflexivity.
Defined.

(** ** Capturing a face *)

(** C3.  When the detector finds no face, the capture raises the notice
    "No faces detected!" and does nothing else; whatever [prompt] returned,
    a capture on a frame without detections leaves the gallery as it was. *)
Theorem captureFace_no_detections (faceName : string) (s : State) :
  captureFace_resume faceName [] s = alert "No faces detected!" s /\
  alerts (captureFace_resume faceName [] s) = alerts s ++ ["No faces detected!"] /\
  faceDescriptors (captureFace_resume faceName [] s) = faceDescriptors s /\
  (forall answer, faceDescriptors (captureFace answer [] s) = faceDescriptors s) /\
  (forall c rest, captureFace (Some (String c rest)) [] s
                  = alert "No faces detected!" s).
Proof.
  repeat split.
  intros [[|c rest]|]; reflexivity.
Qed.

(** C4.  A capture with a non-empty name and at least one detection appends
    one entry, the name with the descriptor of the first detection, after
    the entries already stored, which keep their places; on an empty
    gallery the result has size 1 and the new entry at index 0. *)
Theorem captureFace_appends (faceName : string) (first : Detection)
  (others : list Detection) (s : State) :
  faceName <> "" ->
  let entry := {| name := faceName; descriptor := detection_descriptor first |} in
  let g := faceDescriptors s in
  let g' := faceDescriptors (captureFace (Some faceName) (first :: others) s) in
  g' = g ++ [entry] /\
  List.length g' = S (List.length g) /\
  (forall i, i < List.length g -> nth_error g' i = nth_error g i) /\
  nth_error g' (List.length g) = Some entry /\
  (g = [] -> g' = [entry] /\ List.length g' = 1 /\ nth_error g' 0 = Some entry).
Proof.
  intros Hne entry g g'.
  assert (Hg' : g' = g ++ [entry]).
  { subst g'. destruct faceName as [|c rest]; [congruence|]. reflexivity. }
  rewrite Hg'. split; [reflexivity|]. split.
  { rewrite length_app. simpl. lia. }
  split.
  { intros i Hi. apply nth_error_app1. exact Hi. }
  split.
  { rewrite nth_error_app2 by lia. rewrite Nat.sub_diag. reflexivity. }
  intros Hnil. rewrite Hnil. repeat split.
Qed.

Lemma captureFace_appends_witness :
  faceDescriptors (captureFace (Some "Bob") [seen dB; seen dC] pageLive) = [face "Bob" dB].
Proof.
  assert (Hne : "Bob" <> "") by discriminate.
  destruct (captureFace_appends "Bob" (seen dB) [seen dC] pageLive Hne) as (H & _).
  exact H.
Defined.

(** ** The recognize button *)



(** ** Stopping the camera *)

Lemma stopCamera_videoStream (s : State) : videoStream (stopCamera s) = None.
Proof.
  unfold stopCamera. destruct (videoStream s) as [stream|] eqn:Hv; [reflexivity | exact Hv].
Qed.

Lemma stopCamera_stopped (s : State) : videoStream s = None -> stopCamera s = s.
Proof.
  intros Hnone. unfold stopCamera. rewrite Hnone. reflexivity.
Qed.

(** C10.  Without an active stream [stopCamera] returns the state it was
    given, every field of it; hence stopping twice is stopping once. *)
Theorem stopCamera_idempotent (s : State) :
  (videoStream s = None -> stopCamera s = s) /\
  stopCamera (stopCamera s) = stopCamera s.
Proof.
  split.
  - apply stopCamera_stopped.
  - apply stopCamera_stopped, stopCamera_videoStream.
Qed.

Lemma stopCamera_idempotent_witness :
  videoStream page0 = None /\ stopCamera page0 = page0 /\
  stopCamera (stopCamera (startCamera (Some 7) page0))
  = stopCamera (startCamera (Some 7) page0).
Proof.
  assert (H : videoStream page0 = None) by reflexivity.
  split; [exact H|]. split.
  - exact (proj1 (stopCamera_idempotent page0) H).
  - exact (proj2 (stopCamera_idempotent (startCamera (Some 7) page0))).
Defined.

(** ** Deleting an entry *)

Section RemoveAt.
Context {A : Type}.
Implicit Types (l : list A) (n j : nat).

Lemma removeAt_length l n :
  n < List.length l -> List.length (firstn n l ++ skipn (S n) l) = List.length l - 1.
Proof.
  intros Hn. rewrite length_app, length_firstn, length_skipn. lia.
Qed.

Lemma removeAt_before l n j :
  j < n -> n <= List.length l ->
  nth_error (firstn n l ++ skipn (S n) l) j = nth_error l j.
Proof.
  intros Hj Hn. rewrite nth_error_app1.
  - rewrite nth_error_firstn. destruct (Nat.ltb_spec j n); [reflexivity | lia].
  - rewrite length_firstn. lia.
Qed.

Lemma removeAt_after l n j :
  n <= j -> n <= List.length l ->
  nth_error (firstn n l ++ skipn (S n) l) j = nth_error l (S j).
Proof.
  intros Hj Hn. rewrite nth_error_app2; rewrite length_firstn; [|lia].
  rewrite nth_error_skipn. f_equal. lia.
Qed.

Lemma removeAt_beyond l n :
  List.length l <= n -> firstn n l ++ skipn (S n) l = l.
Proof.
  intros Hn. rewrite firstn_all2 by exact Hn.
  rewrite skipn_all2 by lia. apply app_nil_r.
Qed.

Lemma removeAt_In l n (x : A) :
  In x (firstn n l ++ skipn (S n) l) -> In x l.
Proof.
  intros Hin. apply in_app_or in Hin. destruct Hin as [Hin | Hin].
  - rewrite <- (firstn_skipn n l). apply in_or_app. left. exact Hin.
  - rewrite <- (firstn_skipn (S n) l). apply in_or_app. right. exact Hin.
Qed.
End RemoveAt.

Lemma splice_start_inside (len : nat) (index : Z) :
  (0 <= index < Z.of_nat len)%Z -> splice_start len index = Z.to_nat index.
Proof.
  intros Hin. unfold splice_start.
  destruct (Z.ltb_spec index 0); [lia|]. rewrite Z.min_l by lia. reflexivity.
Qed.

Lemma splice_start_beyond (len : nat) (index : Z) :
  (Z.of_nat len <= index)%Z -> splice_start len index = len.
Proof.
  intros Hin. unfold splice_start.
  destruct (Z.ltb_spec index 0); [lia|]. rewrite Z.min_r by lia. apply Nat2Z.id.
Qed.

Lemma splice_start_negative (len : nat) (index : Z) :
  (index < 0)%Z ->
  splice_start len index = Z.to_nat (Z.max (Z.of_nat len + index) 0).
Proof.
  intros Hin. unfold splice_start.
  destruct (Z.ltb_spec index 0); [reflexivity | lia].
Qed.

(** The claim of C5 fails as stated: [delete(5)] on the gallery [A, B, C]
    is not refused.  No alert is raised (and [deleteFace] has no other way
    to fail); the panel is redrawn over the same three entries. *)
Lemma deleteFace_out_of_range_not_refused : ~ delete_meets_spec 5 pageABC.
Proof.
  unfold delete_meets_spec. cbv zeta.
  replace (spec_delete 5 (faceDescriptors pageABC)) with
    (@inl GalleryError (list Face) IndexOutOfRange) by (vm_compute; reflexivity).
  intros [Halert _]. apply Halert. vm_compute. reflexivity.
Qed.

(** C5, amended.  [deleteFace] never raises a notice.  With an index inside
    the gallery it removes the entry at that position: the entries before
    it keep their index and the entries after it move down by one.  With an
    index at or past the end it leaves the gallery as it is.  A negative
    index is counted from the end of the gallery, as [splice] does. *)
Theorem deleteFace_splices (index : Z) (s : State) :
  let g := faceDescriptors s in
  let g' := faceDescriptors (deleteFace index s) in
  alerts (deleteFace index s) = alerts s /\
  ((0 <= index < Z.of_nat (List.length g))%Z ->
     spec_delete index g = inr g' /\
     List.length g' = List.length g - 1 /\
     (forall j, j < Z.to_nat index -> nth_error g' j = nth_error g j) /\
     (forall j, Z.to_nat index <= j -> nth_error g' j = nth_error g (S j))) /\
  ((Z.of_nat (List.length g) <= index)%Z -> g' = g) /\
  ((index < 0)%Z ->
     let k := Z.to_nat (Z.max (Z.of_nat (List.length g) + index) 0) in
     g' = firstn k g ++ skipn (S k) g).
Proof.
  intros g g'.
  assert (Hg' : g' = splice1 index g) by reflexivity.
  split; [reflexivity|]. split; [|split].
  - intros Hin. unfold splice1 in Hg'.
    rewrite (splice_start_inside _ _ Hin) in Hg'. rewrite Hg'.
    split.
    { unfold spec_delete.
      destruct (Z.leb_spec 0 index); [|lia].
      destruct (Z.ltb_spec index (Z.of_nat (List.length g))); [reflexivity | lia]. }
    split; [apply removeAt_length; lia|]. split.
    + intros j Hj. apply removeAt_before; lia.
    + intros j Hj. apply removeAt_after; lia.
  - intros Hout. unfold splice1 in Hg'.
    rewrite (splice_start_beyond _ _ Hout) in Hg'. rewrite Hg'.
    apply removeAt_beyond. lia.
  - intros Hneg k. unfold splice1 in Hg'.
    rewrite (splice_start_negative _ _ Hneg) in Hg'. exact Hg'.
Qed.

Lemma deleteFace_splices_witness :
  nth_error (faceDescriptors (deleteFace 0 pageABC)) 0 = Some (face "B" dB) /\
  faceDescriptors (deleteFace 5 pageABC) = galleryABC /\
  faceDescriptors (deleteFace (-1) pageABC) = [face "A" dA; face "B" dB].
Proof.
  destruct (deleteFace_splices 0 pageABC) as (_ & Hin & _ & _).
  destruct (deleteFace_splices 5 pageABC) as (_ & _ & Hout & _).
  destruct (deleteFace_splices (-1) pageABC) as (_ & _ & _ & Hneg).
  split; [|split].
  - assert (H : (0 <= 0 < Z.of_nat (List.length (faceDescriptors pageABC)))%Z)
      by (vm_compute; split; [discriminate | reflexivity]).
    destruct (Hin H) as (_ & _ & _ & Hafter). rewrite (Hafter 0) by (simpl; lia).
    vm_compute. reflexivity.
  - apply Hout. vm_compute. discriminate.
  - rewrite Hneg by lia. vm_compute. reflexivity.
Defined.

(** ** Labels *)

Lemma cycle_begin_faceDescriptors (c : Cycle) (s : State) :
  faceDescriptors (cycle_begin c s) = faceDescriptors s.
Proof.
  unfold cycle_begin. destruct (videoStream s); reflexivity.
Qed.

Lemma drawBoxes_canvas (displaySize : Size)
  (boxes : list (Detection * MatchResult)) (s : State) :
  fold_left (fun s dr => draw (DrawBox (fst dr) displaySize (snd dr)) s) boxes s
  = set_canvas (canvas s ++ resultBoxes displaySize boxes) s.
Proof.
  revert s. induction boxes as [|b boxes IH]; intros s; simpl.
  - rewrite app_nil_r. destruct s; reflexivity.
  - rewrite IH. simpl. rewrite <- app_assoc. reflexivity.
Qed.

(** The four ways a resumed cycle can end: before [clearRect], right after
    it, or at the end of [detect] or of [recognize]. *)
Lemma cycle_resume_cases (c : Cycle) (reply : Reply) (s : State) :
  cycle_resume c reply s = s \/
  cycle_resume c reply s = clearRect s \/
  (exists displaySize detections,
      c = detect displaySize /\
      cycle_resume c reply s
      = requestAnimationFrame c
          (set_canvas [DrawDetections detections displaySize;
                       DrawFaceLandmarks detections displaySize] s)) \/
  (exists displaySize detections results,
      c = recognize displaySize /\
      matchAll (faceMatcher s) detections = Some results /\
      cycle_resume c reply s
      = requestAnimationFrame c
          (set_recognizedFacesDiv
             (Heading "Recognition Results:" ::
              match results with
              | [] => [Paragraph "No faces detected."]
              | _ :: _ => map ResultLine results
              end)
             (set_canvas (resultBoxes displaySize (combine detections results)) s))).
Proof.
  destruct reply as [|detections lib]; [left; reflexivity|].
  destruct c as [displaySize | displaySize]; simpl.
  - unfold detect_rest. destruct (resizeResults_returns lib); [|left; reflexivity].
    right. right. left. exists displaySize, detections. split; reflexivity.
  - unfold recognize_rest. destruct (resizeResults_returns lib); [|left; reflexivity].
    destruct (findBestMatch_returns lib); [|right; left; reflexivity].
    change (faceMatcher (clearRect s)) with (faceMatcher s).
    destruct (matchAll (faceMatcher s) detections) as [results|] eqn:Hm;
      [|right; left; reflexivity].
    right. right. right. exists displaySize, detections, results.
    split; [reflexivity|]. split; [exact Hm|].
    rewrite drawBoxes_canvas. reflexivity.
Qed.

Lemma cycle_resume_faceDescriptors (c : Cycle) (reply : Reply) (s : State) :
  faceDescriptors (cycle_resume c reply s) = faceDescriptors s.
Proof.
  destruct (cycle_resume_cases c reply s)
    as [H | [H | [(d & ds & _ & H) | (d & ds & rs & _ & _ & H)]]];
    rewrite H; reflexivity.
Qed.

Lemma animationFrame_faceDescriptors (s : State) :
  faceDescriptors (animationFrame s) = faceDescriptors s.
Proof.
  unfold animationFrame.
  assert (H : forall cs t, faceDescriptors (fold_left (fun s c => cycle_begin c s) cs t)
                           = faceDescriptors t).
  { induction cs as [|c cs IH]; intros t; simpl.
    - reflexivity.
    - rewrite IH. apply cycle_begin_faceDescriptors. }
  rewrite H. reflexivity.
Qed.

Lemma handle_faceDescriptors (e : Event) (s : State) :
  match e with
  | CaptureAndLabel _ _ | DeleteEntry _ => True
  | _ => faceDescriptors (handle e s) = faceDescriptors s
  end.
Proof.
  destruct e as [acquired| | | | | |k detections]; simpl; try exact I.
  - destruct acquired as [stream|]; reflexivity.
  - unfold stopCamera. destruct (videoStream s); reflexivity.
  - unfold recognizeFaces. destruct (faceDescriptors s) as [|f fs] eqn:Hg.
    + simpl. exact Hg.
    + rewrite cycle_begin_faceDescriptors. simpl. exact Hg.
  - apply animationFrame_faceDescriptors.
  - unfold detectorReply. destruct (nth_error (inFlight s) k) as [c|]; [|reflexivity].
    rewrite cycle_resume_faceDescriptors. reflexivity.
Qed.

Lemma handle_labels_nonempty (e : Event) (s : State) :
  labels_nonempty s -> labels_nonempty (handle e s).
Proof.
  unfold labels_nonempty. intros Hs.
  pose proof (handle_faceDescriptors e s) as Hsame.
  destruct e as [acquired| |answer detections|index| | |k detections];
    try (rewrite Hsame; exact Hs).
  - simpl. destruct answer as [[|c rest]|]; try exact Hs.
    destruct detections as [|first others]; simpl; [exact Hs|].
    apply Forall_app. split; [exact Hs|]. constructor; [discriminate | constructor].
  - simpl. rewrite Forall_forall in *. intros f Hin. apply Hs.
    unfold splice1 in Hin. eapply removeAt_In. exact Hin.
Qed.

Lemma run_labels_nonempty (es : list Event) (s : State) :
  labels_nonempty s -> labels_nonempty (run es s).
Proof.
  revert s. induction es as [|e es IH]; intros s Hs; simpl.
  - exact Hs.
  - apply IH. apply handle_labels_nonempty. exact Hs.
Qed.

(** The claim of C6 fails as stated: a label made of one space is accepted
    and stored. *)
Lemma captureFace_whitespace_label_stored : ~ capture_meets_spec " " [seen dA] pageLive.
Proof.
  unfold capture_meets_spec. cbv zeta.
  replace (blank " ") with true by reflexivity.
  vm_compute. discriminate.
Qed.

(** C6, amended.  A capture whose label is the empty string, or whose
    prompt was cancelled, is abandoned before the detector is asked: the
    state, gallery included, is returned as it was, and no notice is
    raised.  Over any sequence of events, a gallery without empty labels
    stays without empty labels. *)
Theorem captureFace_empty_label (detections : list Detection) (s : State) :
  captureFace (Some "") detections s = s /\
  captureFace None detections s = s /\
  (forall es, labels_nonempty s -> labels_nonempty (run es s)).
Proof.
  split; [reflexivity|]. split; [reflexivity|].
  intros es. apply run_labels_nonempty.
Qed.

Lemma captureFace_empty_label_witness :
  labels_nonempty
    (run [StartCapture (Some 7); CaptureAndLabel (Some "") [seen dA];
          CaptureAndLabel (Some "Bob") [seen dB]; DeleteEntry 0] page0).
Proof.
  destruct (captureFace_empty_label [] page0) as (_ & _ & Hrun).
  apply Hrun. constructor.
Defined.

(** ** Stopping the loops *)

Lemma cycle_begin_stopped (c : Cycle) (s : State) :
  videoStream s = None -> cycle_begin c s = s.
Proof.
  intros Hnone. unfold cycle_begin. rewrite Hnone. reflexivity.
Qed.

Lemma callbacks_stopped (cs : list Cycle) (s : State) :
  videoStream s = None -> fold_left (fun s c => cycle_begin c s) cs s = s.
Proof.
  intros Hnone. induction cs as [|c cs IH]; simpl.
  - reflexivity.
  - rewrite (cycle_begin_stopped c s Hnone). exact IH.
Qed.

Lemma animationFrame_stopped (s : State) :
  videoStream s = None -> animationFrame s = set_frameCallbacks [] s.
Proof.
  intros Hnone. unfold animationFrame. apply callbacks_stopped. exact Hnone.
Qed.

Lemma cycle_resume_videoStream (c : Cycle) (reply : Reply) (s : State) :
  videoStream (cycle_resume c reply s) = videoStream s.
Proof.
  destruct (cycle_resume_cases c reply s)
    as [H | [H | [(d & ds & _ & H) | (d & ds & rs & _ & _ & H)]]];
    rewrite H; reflexivity.
Qed.







(** ** The distance *)

Lemma sumSquaredDiff_sym (a b : Descriptor) : sumSquaredDiff a b = sumSquaredDiff b a.
Proof.
  revert b. induction a as [|x a IH]; intros [|y b]; simpl; try reflexivity.
  rewrite (IH b). ring.
Qed.

Lemma sumSquaredDiff_diag (a : Descriptor) : sumSquaredDiff a a = 0%R.
Proof.
  induction a as [|x a IH]; simpl; [reflexivity|]. rewrite IH. ring.
Qed.

Lemma sumSquaredDiff_nonneg (a b : Descriptor) : (0 <= sumSquaredDiff a b)%R.
Proof.
  revert b. induction a as [|x a IH]; intros [|y b]; simpl; try lra.
  specialize (IH b). pose proof (Rle_0_sqr (x - y)) as Hsq. unfold Rsqr in Hsq. lra.
Qed.

(** C8.  The distance is symmetric and is zero between a descriptor and
    itself; and the distance the matcher attaches to each candidate is the
    Euclidean one, the square root of the sum of the squared component
    differences between the query and a stored descriptor. *)
Theorem euclideanDistance_symmetric_identity (a b : Descriptor) :
  euclideanDistance a b = euclideanDistance b a /\
  euclideanDistance a a = 0%R /\
  (forall m r, In r (candidates m a) ->
     exists l d, In l (labeledDescriptors m) /\ In d (descriptors l) /\
                 mr_label r = label l /\
                 mr_distance r = sqrt (sumSquaredDiff a d)).
Proof.
  split; [|split].
  - unfold euclideanDistance. rewrite sumSquaredDiff_sym. reflexivity.
  - unfold euclideanDistance. rewrite sumSquaredDiff_diag. apply sqrt_0.
  - intros m r Hr. unfold candidates in Hr.
    apply in_flat_map in Hr. destruct Hr as (l & Hl & Hr).
    apply in_map_iff in Hr. destruct Hr as (d & Hd & Hin).
    exists l, d. subst r. repeat split; assumption.
Qed.

(** ** The best match *)

Lemma closer_cases (best cur : MatchResult) :
  (closer best cur = best \/ closer best cur = cur) /\
  (mr_distance (closer best cur) <= mr_distance best)%R /\
  (mr_distance (closer best cur) <= mr_distance cur)%R.
Proof.
  unfold closer. destruct (Rlt_dec (mr_distance cur) (mr_distance best)) as [Hlt | Hge].
  - split; [right; reflexivity|]. split; lra.
  - split; [left; reflexivity|]. split; lra.
Qed.

Lemma scan_minimum (cs : list MatchResult) (c : MatchResult) :
  In (fold_left closer cs c) (c :: cs) /\
  (forall x, In x (c :: cs) -> (mr_distance (fold_left closer cs c) <= mr_distance x)%R).
Proof.
  revert c. induction cs as [|a cs IH]; intros c; simpl.
  - split; [left; reflexivity|]. intros x [Hx | []]. subst x. lra.
  - destruct (IH (closer c a)) as [Hin Hmin].
    destruct (closer_cases c a) as (Hwhich & Hc & Ha).
    split.
    + destruct Hin as [Hin | Hin].
      * destruct Hwhich as [Hw | Hw]; [left | right; left]; congruence.
      * right. right. exact Hin.
    + intros x Hx.
      assert (Hbest : (mr_distance (fold_left closer cs (closer c a))
                       <= mr_distance (closer c a))%R).
      { apply Hmin. left. reflexivity. }
      destruct Hx as [Hx | [Hx | Hx]].
      * subst x. lra.
      * subst x. lra.
      * apply Hmin. right. exact Hx.
Qed.

Lemma candidates_matcherOf (g : list Face) (q : Descriptor) :
  candidates (matcherOf g) q
  = map (fun e => {| mr_label := name e;
                     mr_distance := euclideanDistance q (descriptor e) |}) g.
Proof.
  unfold candidates, matcherOf, labelFaces. simpl.
  induction g as [|e g IH]; simpl; [reflexivity|]. rewrite IH. reflexivity.
Qed.

Lemma recognizeFaces_matcher (s : State) :
  faceDescriptors s <> [] ->
  faceMatcher (recognizeFaces s) = Some (matcherOf (faceDescriptors s)).
Proof.
  intros Hne. unfold recognizeFaces.
  destruct (faceDescriptors s) as [|f fs] eqn:Hg; [congruence|].
  unfold cycle_begin. simpl. destruct (videoStream s); reflexivity.
Qed.

(** C1.  On a non-empty gallery [recognizeFaces] builds a matcher, and for
    every query the distance [findBestMatch] reports is the least distance
    from the query to a stored descriptor.  When that distance is at most
    0.6 the label is the name of an entry at that distance; when it is
    more than 0.6 the label is "unknown". *)
Theorem findBestMatch_nearest (s : State) (q : Descriptor) :
  faceDescriptors s <> [] ->
  exists m,
    faceMatcher (recognizeFaces s) = Some m /\
    let g := faceDescriptors s in
    let r := findBestMatch m q in
    (exists e, In e g /\ mr_distance r = euclideanDistance q (descriptor e)) /\
    (forall e, In e g -> (mr_distance r <= euclideanDistance q (descriptor e))%R) /\
    ((mr_distance r <= 6 / 10)%R ->
       exists e, In e g /\ mr_label r = name e /\
                 euclideanDistance q (descriptor e) = mr_distance r) /\
    ((mr_distance r > 6 / 10)%R -> mr_label r = unknown).
Proof.
  intros Hne. exists (matcherOf (faceDescriptors s)).
  split; [apply recognizeFaces_matcher; exact Hne|].
  intros g r. subst r g. unfold findBestMatch. rewrite candidates_matcherOf.
  destruct (faceDescriptors s) as [|e0 g0] eqn:Hg; [congruence|].
  set (toResult := fun e => {| mr_label := name e;
                               mr_distance := euclideanDistance q (descriptor e) |}).
  simpl map. unfold closest.
  destruct (scan_minimum (map toResult g0) (toResult e0)) as [Hin Hmin].
  set (best := fold_left closer (map toResult g0) (toResult e0)) in *.
  assert (Hsrc : exists e, In e (e0 :: g0) /\ best = toResult e).
  { change (toResult e0 :: map toResult g0) with (map toResult (e0 :: g0)) in Hin.
    apply in_map_iff in Hin. destruct Hin as (e & He & Hine). exists e. auto. }
  assert (Hleast : forall e, In e (e0 :: g0) ->
                   (mr_distance best <= euclideanDistance q (descriptor e))%R).
  { intros e He.
    change (euclideanDistance q (descriptor e)) with (mr_distance (toResult e)).
    apply Hmin.
    change (toResult e0 :: map toResult g0) with (map toResult (e0 :: g0)).
    apply in_map. exact He. }
  destruct Hsrc as (e & He & Hbest).
  simpl distanceThreshold.
  destruct (Rle_dec (mr_distance best) (6 / 10)) as [Hle | Hgt]; simpl.
  - split; [exists e; split; [exact He | rewrite Hbest; reflexivity]|].
    split; [exact Hleast|]. split.
    + intros _. exists e. rewrite Hbest. simpl. auto.
    + intros Hfar. lra.
  - split; [exists e; split; [exact He | rewrite Hbest; reflexivity]|].
    split; [exact Hleast|]. split.
    + intros Hnear. lra.
    + intros _. reflexivity.
Qed.

Lemma findBestMatch_nearest_witness :
  faceDescriptors pageABC <> [] /\
  exists m, faceMatcher (recognizeFaces pageABC) = Some m /\
            forall e, In e galleryABC ->
                      (mr_distance (findBestMatch m dB)
                       <= euclideanDistance dB (descriptor e))%R.
Proof.
  assert (Hne : faceDescriptors pageABC <> []) by discriminate.
  split; [exact Hne|].
  destruct (findBestMatch_nearest pageABC dB Hne) as (m & Hm & _ & Hleast & _).
  exists m. split; [exact Hm | exact Hleast].
Defined.

(** ** Worked cases *)

Lemma euclideanDistance_on_axis (x : R) :
  (0 <= x)%R -> euclideanDistance [x; 0%R] dA = x.
Proof.
  intros Hx. unfold euclideanDistance, dA. simpl.
  replace ((x - 0) * (x - 0) + ((0 - 0) * (0 - 0) + 0))%R with (x * x)%R by ring.
  apply sqrt_square. exact Hx.
Qed.

(** Gallery [Alice], query at distance 0.4: the result is Alice at 0.4. *)
Example findBestMatch_alice_near :
  findBestMatch (matcherOf [face "Alice" dA]) [(4 / 10)%R; 0%R]
  = {| mr_label := "Alice"; mr_distance := 4 / 10 |}.
Proof.
  unfold findBestMatch. rewrite candidates_matcherOf. simpl.
  rewrite euclideanDistance_on_axis by lra.
  destruct (Rle_dec (4 / 10) (6 / 10)) as [Hle | Hgt]; [reflexivity | lra].
Qed.

(** Gallery [Alice], query at distance 0.8: the result is unknown at 0.8. *)
Example findBestMatch_alice_far :
  findBestMatch (matcherOf [face "Alice" dA]) [(8 / 10)%R; 0%R]
  = {| mr_label := "unknown"; mr_distance := 8 / 10 |}.
Proof.
  unfold findBestMatch. rewrite candidates_matcherOf. simpl.
  rewrite euclideanDistance_on_axis by lra.
  destruct (Rle_dec (8 / 10) (6 / 10)) as [Hle | Hgt]; [lra | reflexivity].
Qed.

Example delete_first_of_three :
  faceDescriptors (deleteFace 0 pageABC) = [face "B" dB; face "C" dC].
Proof. reflexivity. Qed.

Example delete_redraws_panel :
  faceDescriptorsDiv (deleteFace 0 pageABC)
  = [Heading "Stored Faces:"; FaceBox (faceBoxHTML "B" 0); FaceBox (faceBoxHTML "C" 1)].
Proof. reflexivity. Qed.

Example camera_on_is_detecting :
  mode (run [StartCapture (Some 7)] page0) = Detecting.
Proof. reflexivity. Qed.

Example recognition_needs_a_face :
  mode (run [StartCapture (Some 7); StartRecognition] page0) = Detecting /\
  mode (run [StartCapture (Some 7); CaptureAndLabel (Some "Bob") [seen dB];
             StartRecognition] page0) = Recognizing /\
  mode (run [StartRecognition] page0) = Idle.
Proof. repeat split. Qed.

Example stop_while_recognizing :
  mode (run [StartCapture (Some 7); CaptureAndLabel (Some "Bob") [seen dB];
             StartRecognition; StopCapture] page0) = Idle.
Proof. reflexivity. Qed.

(** A cycle suspended on the detector when the camera stops still runs its
    second half when the answer comes, and registers itself once more. *)
Example suspended_cycle_finishes_its_frame :
  let s := run [StartCapture (Some 7); StopCapture;
                DetectorReply 0 (answered [seen dA])] page0 in
  frameCallbacks s = [detect vga] /\
  canvas s = [DrawDetections [seen dA] vga; DrawFaceLandmarks [seen dA] vga] /\
  frameCallbacks (handle AnimationFrame s) = [] /\
  inFlight (handle AnimationFrame s) = [].
Proof. repeat split. Qed.

(** * More of the page *)

(** ** The shape of a frame and of a resumed cycle *)

Lemma callbacks_alive (cs : list Cycle) (s : State) :
  videoStream s <> None ->
  fold_left (fun s c => cycle_begin c s) cs s = set_inFlight (inFlight s ++ cs) s.
Proof.
  revert s. induction cs as [|c cs IH]; intros s Halive; simpl.
  - rewrite app_nil_r. destruct s; reflexivity.
  - assert (Hc : cycle_begin c s = set_inFlight (inFlight s ++ [c]) s).
    { unfold cycle_begin. destruct (videoStream s); [reflexivity | congruence]. }
    rewrite Hc. rewrite IH by exact Halive. simpl.
    rewrite <- app_assoc. reflexivity.
Qed.

Lemma animationFrame_shape (s : State) :
  animationFrame s
  = match videoStream s with
    | None => set_frameCallbacks [] s
    | Some _ => set_inFlight (inFlight s ++ frameCallbacks s) (set_frameCallbacks [] s)
    end.
Proof.
  destruct (videoStream s) as [stream|] eqn:Hv.
  - unfold animationFrame. rewrite callbacks_alive; [reflexivity|].
    simpl. rewrite Hv. discriminate.
  - apply animationFrame_stopped. exact Hv.
Qed.

Lemma combine_map_self {A B : Type} (f : A -> B) (l : list A) :
  combine l (map f l) = map (fun x => (x, f x)) l.
Proof.
  induction l as [|x l IH]; simpl; [reflexivity|]. rewrite IH. reflexivity.
Qed.

Lemma recognize_resume_shape (displaySize : Size) (detections : list Detection)
  (s : State) :
  cycle_resume (recognize displaySize) (answered detections) s
  = match matchAll (faceMatcher s) detections with
    | None => clearRect s
    | Some results =>
        requestAnimationFrame (recognize displaySize)
          (set_recognizedFacesDiv
             (Heading "Recognition Results:" ::
              match results with
              | [] => [Paragraph "No faces detected."]
              | _ :: _ => map ResultLine results
              end)
             (set_canvas (resultBoxes displaySize (combine detections results)) s))
    end.
Proof.
  simpl. unfold recognize_rest. simpl.
  destruct (matchAll (faceMatcher s) detections) as [results|]; [|reflexivity].
  rewrite drawBoxes_canvas. reflexivity.
Qed.

Lemma existsb_false_In {A : Type} (f : A -> bool) (l : list A) :
  existsb f l = false <-> (forall x, In x l -> f x = false).
Proof.
  split.
  - intros Hex x Hin. destruct (f x) eqn:Hfx; [|reflexivity].
    rewrite <- Hex. symmetry. apply existsb_exists. exists x. auto.
  - intros Hall. destruct (existsb f l) eqn:Hex; [|reflexivity].
    apply existsb_exists in Hex. destruct Hex as (x & Hin & Hfx).
    rewrite (Hall x Hin) in Hfx. discriminate.
Qed.

(** ** The gallery and its panel *)

Lemma quiet_event_gallery (e : Event) (s : State) :
  edits_gallery e = false ->
  faceDescriptors (handle e s) = faceDescriptors s /\
  faceDescriptorsDiv (handle e s) = faceDescriptorsDiv s.
Proof.
  destruct e as [acquired| |answer detections|index| | |k detections];
    try discriminate; intros _; simpl.
  - destruct acquired as [stream|]; split; reflexivity.
  - unfold stopCamera. destruct (videoStream s); split; reflexivity.
  - unfold recognizeFaces. destruct (faceDescriptors s) as [|f fs] eqn:Hg.
    + split; [exact Hg | reflexivity].
    + unfold cycle_begin. simpl. destruct (videoStream s); split; simpl; auto.
  - rewrite animationFrame_shape. destruct (videoStream s); split; reflexivity.
  - unfold detectorReply. destruct (nth_error (inFlight s) k) as [c|];
      [|split; reflexivity].
    set (t := set_inFlight _ s).
    destruct (cycle_resume_cases c detections t)
      as [H | [H | [(d & ds & _ & H) | (d & ds & rs & _ & _ & H)]]];
      rewrite H; split; reflexivity.
Qed.

(** X1.  Stored faces are lost only by deleting them: over any sequence of
    events without a capture or a delete (starting and stopping the camera,
    starting recognition, frames, detector answers) the gallery and its
    panel are what they were. *)
Theorem gallery_kept_by_quiet_events (es : list Event) (s : State) :
  forallb (fun e => negb (edits_gallery e)) es = true ->
  faceDescriptors (run es s) = faceDescriptors s /\
  faceDescriptorsDiv (run es s) = faceDescriptorsDiv s.
Proof.
  revert s. induction es as [|e es IH]; intros s Hquiet; simpl in *.
  - split; reflexivity.
  - apply andb_prop in Hquiet. destruct Hquiet as [He Hes].
    apply negb_true_iff in He.
    destruct (quiet_event_gallery e s He) as [Hg Hp].
    destruct (IH (handle e s) Hes) as [Hg' Hp'].
    split; congruence.
Qed.

Lemma gallery_kept_by_quiet_events_witness :
  faceDescriptors
    (run [StopCapture; StartCapture (Some 8); StartRecognition; AnimationFrame;
          DetectorReply 0 (answered [seen dB]); DetectorReply 0 rejected;
          StopCapture] pageABC)
  = faceDescriptors pageABC.
Proof.
  apply gallery_kept_by_quiet_events. reflexivity.
Defined.

Lemma faceBoxes_nth (g : list Face) (k j : nat) :
  nth_error (faceBoxes k g) j
  = option_map (fun e => FaceBox (faceBoxHTML (name e) (k + j))) (nth_error g j).
Proof.
  revert k j. induction g as [|f g IH]; intros k j; simpl.
  - destruct j; reflexivity.
  - destruct j as [|j]; simpl.
    + rewrite Nat.add_0_r. reflexivity.
    + rewrite IH. rewrite Nat.add_succ_r. reflexivity.
Qed.

Lemma faceBoxes_length (g : list Face) (k : nat) :
  List.length (faceBoxes k g) = List.length g.
Proof.
  revert k. induction g as [|f g IH]; intros k; simpl; [reflexivity|].
  rewrite IH. reflexivity.
Qed.

Lemma faceBoxes_In (g : list Face) (html : string) :
  In (FaceBox html) (faceBoxes 0 g) ->
  exists i e, nth_error g i = Some e /\ html = faceBoxHTML (name e) i.
Proof.
  intros Hin. apply In_nth_error in Hin. destruct Hin as [j Hj].
  rewrite faceBoxes_nth in Hj. destruct (nth_error g j) as [e|] eqn:He; [|discriminate].
  simpl in Hj. injection Hj as Hhtml. exists j, e. split; [exact He | congruence].
Qed.

(** X2.  When the panel shows the gallery it holds one face box per stored
    entry, in gallery order, and nothing else but the heading (or the note
    that nothing is stored).  The markup of the box of entry [i] is the
    template with that entry's name, put in as it is and not escaped,
    between two fixed pieces of markup, and with [i] as the argument of
    [deleteFace]; so the index the page writes into a Delete handler is
    inside the gallery, and [deleteFace] on it removes that entry as the
    contract of the spec says. *)
Theorem face_boxes_are_entries (s : State) :
  panel_in_sync s ->
  (forall i e, nth_error (faceDescriptors s) i = Some e ->
     nth_error (faceDescriptorsDiv s) (S i) = Some (FaceBox (faceBoxHTML (name e) i)) /\
     spec_delete (Z.of_nat i) (faceDescriptors s)
     = inr (faceDescriptors (deleteFace (Z.of_nat i) s))) /\
  (forall html, In (FaceBox html) (faceDescriptorsDiv s) ->
     exists i e, nth_error (faceDescriptors s) i = Some e /\
                 html = faceBoxHTML (name e) i) /\
  List.length (faceDescriptorsDiv s) = S (Nat.max 1 (List.length (faceDescriptors s))) /\
  (forall faceName i,
     faceBoxHTML faceName i
     = String.append markupBeforeName (String.append faceName (markupAfterName i))).
Proof.
  intros Hsync.
  assert (Hpanel : faceDescriptorsDiv s
                   = Heading "Stored Faces:" ::
                     match faceDescriptors s with
                     | [] => [Paragraph "No faces stored yet."]
                     | _ :: _ => faceBoxes 0 (faceDescriptors s)
                     end) by exact Hsync.
  split; [|split; [|split]].
  - intros i e He.
    assert (Hi : i < List.length (faceDescriptors s)).
    { apply nth_error_Some. congruence. }
    split.
    + rewrite Hpanel. simpl. destruct (faceDescriptors s) as [|f fs] eqn:Hg.
      * destruct i; discriminate.
      * rewrite faceBoxes_nth, He. reflexivity.
    + unfold spec_delete.
      destruct (Z.leb_spec 0 (Z.of_nat i)); [|lia].
      destruct (Z.ltb_spec (Z.of_nat i) (Z.of_nat (List.length (faceDescriptors s))));
        [|lia].
      simpl. f_equal. unfold splice1. rewrite splice_start_inside by lia. reflexivity.
  - intros html Hin. rewrite Hpanel in Hin. destruct Hin as [Hin | Hin]; [discriminate|].
    destruct (faceDescriptors s) as [|f fs] eqn:Hg.
    + destruct Hin as [Hin | []]. discriminate.
    + apply faceBoxes_In. exact Hin.
  - rewrite Hpanel. simpl. f_equal. destruct (faceDescriptors s) as [|f fs] eqn:Hg.
    + reflexivity.
    + rewrite faceBoxes_length. simpl. reflexivity.
  - intros faceName i. reflexivity.
Qed.

Lemma face_boxes_are_entries_witness :
  nth_error (faceDescriptorsDiv pageABC) 2 = Some (FaceBox (faceBoxHTML "B" 1)) /\
  spec_delete 1 (faceDescriptors pageABC)
  = inr (faceDescriptors (deleteFace 1 pageABC)).
Proof.
  assert (Hsync : panel_in_sync pageABC) by (vm_compute; reflexivity).
  destruct (face_boxes_are_entries pageABC Hsync) as (Hbox & _).
  apply (Hbox 1 (face "B" dB)). vm_compute. reflexivity.
Defined.

Lemma handle_panel_in_sync (e : Event) (s : State) :
  panel_in_sync s -> panel_in_sync (handle e s).
Proof.
  intros Hsync. destruct (edits_gallery e) eqn:He.
  - destruct e as [| |answer detections|index| | |]; try discriminate; simpl.
    + destruct answer as [[|c rest]|]; try exact Hsync.
      destruct detections as [|first others]; [exact Hsync | reflexivity].
    + reflexivity.
  - destruct (quiet_event_gallery e s He) as [Hg Hp].
    unfold panel_in_sync in *. rewrite Hp, Hsync. simpl. rewrite Hg. reflexivity.
Qed.

(** X3.  Every delete, and every capture that stores a face, redraws the
    panel from the gallery; and once the panel shows the gallery it keeps
    showing it, whatever happens to the page. *)
Theorem panel_follows_gallery (s : State) :
  (forall index, panel_in_sync (deleteFace index s)) /\
  (forall c rest first others,
      panel_in_sync (captureFace (Some (String c rest)) (first :: others) s)) /\
  (forall es, panel_in_sync s -> panel_in_sync (run es s)).
Proof.
  split; [intros; reflexivity|]. split; [intros; reflexivity|].
  intros es. revert s. induction es as [|e es IH]; intros s Hsync; simpl.
  - exact Hsync.
  - apply IH. apply handle_panel_in_sync. exact Hsync.
Qed.

Lemma panel_follows_gallery_witness :
  panel_in_sync
    (run [DeleteEntry 1; StartRecognition; AnimationFrame; StopCapture;
          CaptureAndLabel (Some "D") [seen dA]] pageABC).
Proof.
  destruct (panel_follows_gallery pageABC) as (_ & _ & Hrun).
  apply Hrun. vm_compute. reflexivity.
Defined.

(** ** The camera controls *)

Lemma handle_camera_consistent (e : Event) (s : State) :
  camera_consistent s -> camera_consistent (handle e s).
Proof.
  unfold camera_consistent. intros Hs.
  destruct e as [acquired| |answer detections|index| | |k detections]; simpl.
  - destruct acquired as [stream|]; [repeat split | exact Hs].
  - unfold stopCamera. destruct (videoStream s) eqn:Hv;
      [repeat split | rewrite Hv in *; exact Hs].
  - destruct answer as [[|c rest]|]; try exact Hs.
    destruct detections as [|first others]; exact Hs.
  - exact Hs.
  - unfold recognizeFaces. destruct (faceDescriptors s); [exact Hs|].
    unfold cycle_begin. simpl.
    destruct (videoStream s) eqn:Hv; simpl; rewrite ?Hv; exact Hs.
  - rewrite animationFrame_shape.
    destruct (videoStream s) eqn:Hv; simpl; rewrite ?Hv; exact Hs.
  - unfold detectorReply. destruct (nth_error (inFlight s) k) as [c|]; [|exact Hs].
    set (t := set_inFlight _ s).
    destruct (cycle_resume_cases c detections t)
      as [H | [H | [(d & ds & _ & H) | (d & ds & rs & _ & _ & H)]]];
      rewrite H; exact Hs.
Qed.

(** X4.  The camera controls follow the stream.  If the video element shows
    the current stream, the start button is disabled exactly while a stream
    is held, and the stop and capture buttons exactly while none is, then
    the same is true after any sequence of events. *)
Theorem camera_controls_follow_stream (es : list Event) (s : State) :
  camera_consistent s -> camera_consistent (run es s).
Proof.
  revert s. induction es as [|e es IH]; intros s Hs; simpl.
  - exact Hs.
  - apply IH. apply handle_camera_consistent. exact Hs.
Qed.

Lemma camera_controls_follow_stream_witness :
  camera_consistent
    (run [StartCapture None; StartCapture (Some 7); CaptureAndLabel (Some "A") [seen dA];
          StartRecognition; AnimationFrame; StopCapture;
          DetectorReply 0 (answered [])] page0).
Proof.
  apply camera_controls_follow_stream. repeat split.
Defined.



(** ** Starting recognition *)

Lemma existsb_is_recognize_snoc (cs : list Cycle) (c : Cycle) :
  existsb is_recognize (cs ++ [c]) = existsb is_recognize cs || is_recognize c.
Proof.
  rewrite existsb_app. simpl. rewrite orb_false_r. reflexivity.
Qed.

(** X6.  With faces stored, [recognizeFaces] raises no alert and replaces
    the matcher by the one of the current gallery.  With the camera off it
    starts no cycle and the page stays idle; with the camera on it suspends
    one more [recognize] cycle on the detector, beside the cycles already
    alive, and the page is recognizing. *)
Theorem recognizeFaces_with_faces (s : State) :
  faceDescriptors s <> [] ->
  let s' := recognizeFaces s in
  alerts s' = alerts s /\
  faceMatcher s' = Some (matcherOf (faceDescriptors s)) /\
  labeledFaceDescriptors s' = labelFaces (faceDescriptors s) /\
  frameCallbacks s' = frameCallbacks s /\
  (videoStream s = None -> inFlight s' = inFlight s /\ mode s' = Idle) /\
  (videoStream s <> None ->
     inFlight s' = inFlight s ++ [recognize (video_size s)] /\ mode s' = Recognizing).
Proof.
  intros Hne s'. subst s'. unfold recognizeFaces.
  destruct (faceDescriptors s) as [|f fs] eqn:Hg; [congruence|].
  unfold cycle_begin, mode. simpl.
  destruct (videoStream s) as [stream|] eqn:Hv; simpl; rewrite ?Hv.
  - repeat split; try congruence.
    rewrite app_assoc, existsb_is_recognize_snoc. simpl.
    rewrite orb_true_r. reflexivity.
  - repeat split; try congruence.
Qed.

Lemma recognizeFaces_with_faces_witness :
  mode (recognizeFaces pageABC) = Recognizing /\
  mode (recognizeFaces (stopCamera pageABC)) = Idle.
Proof.
  assert (Hne : faceDescriptors pageABC <> []) by (vm_compute; discriminate).
  assert (Hne' : faceDescriptors (stopCamera pageABC) <> []) by (vm_compute; discriminate).
  destruct (recognizeFaces_with_faces pageABC Hne) as (_ & _ & _ & _ & _ & Hon).
  destruct (recognizeFaces_with_faces (stopCamera pageABC) Hne')
    as (_ & _ & _ & _ & Hoff & _).
  split.
  - apply Hon. vm_compute. discriminate.
  - apply Hoff. vm_compute. reflexivity.
Defined.

(** ** The matcher and the cycles that use it *)

Lemma handle_matcher_frame (e : Event) (s : State) :
  match e with StartRecognition => False | _ => True end ->
  faceMatcher (handle e s) = faceMatcher s /\
  labeledFaceDescriptors (handle e s) = labeledFaceDescriptors s /\
  (forall c, In c (cycles (handle e s)) -> In c (cycles s) \/ is_recognize c = false).
Proof.
  unfold cycles.
  destruct e as [acquired| |answer detections|index| | |k detections]; simpl;
    intros Hnot; try contradiction.
  - destruct acquired as [stream|]; simpl.
    + repeat split. intros c Hin. rewrite app_assoc in Hin.
      apply in_app_or in Hin. destruct Hin as [Hin | [Hin | []]]; [left; exact Hin|].
      right. subst c. reflexivity.
    + repeat split. intros c Hin. left. exact Hin.
  - unfold stopCamera. destruct (videoStream s); repeat split; intros c Hin; left; exact Hin.
  - destruct answer as [[|c0 rest]|]; try (repeat split; intros c Hin; left; exact Hin).
    destruct detections as [|first others]; repeat split; intros c Hin; left; exact Hin.
  - repeat split. intros c Hin. left. exact Hin.
  - rewrite animationFrame_shape. destruct (videoStream s); simpl.
    + repeat split. intros c Hin. left.
      apply in_app_or in Hin. apply in_or_app. tauto.
    + repeat split. intros c Hin. left. apply in_or_app. right. exact Hin.
  - unfold detectorReply. destruct (nth_error (inFlight s) k) as [c0|] eqn:Hk.
    2:{ repeat split. intros c Hin. left. exact Hin. }
    assert (Hc0 : In c0 (inFlight s)) by (eapply nth_error_In; exact Hk).
    assert (Hrest : forall c, In c (firstn k (inFlight s) ++ skipn (S k) (inFlight s)) ->
                              In c (frameCallbacks s ++ inFlight s)).
    { intros c Hin. apply in_or_app. right. eapply removeAt_In. exact Hin. }
    set (t := set_inFlight _ s).
    assert (Hkeep : forall c, In c ((frameCallbacks s ++ [c0])
                                    ++ firstn k (inFlight s) ++ skipn (S k) (inFlight s)) ->
                              In c (frameCallbacks s ++ inFlight s)).
    { intros c Hin. apply in_app_or in Hin. destruct Hin as [Hin | Hin].
      - apply in_app_or in Hin. destruct Hin as [Hin | [Hin | []]].
        + apply in_or_app. left. exact Hin.
        + subst c. apply in_or_app. right. exact Hc0.
      - apply Hrest. exact Hin. }
    assert (Hsame : forall c, In c (frameCallbacks s
                                    ++ firstn k (inFlight s) ++ skipn (S k) (inFlight s)) ->
                              In c (frameCallbacks s ++ inFlight s)).
    { intros c Hin. apply in_app_or in Hin. destruct Hin as [Hin | Hin].
      - apply in_or_app. left. exact Hin.
      - apply Hrest. exact Hin. }
    destruct (cycle_resume_cases c0 detections t)
      as [H | [H | [(d & ds & Hd & H) | (d & ds & rs & Hd & _ & H)]]];
      rewrite H; repeat split; intros c Hin; left.
    + apply Hsame. exact Hin.
    + apply Hsame. exact Hin.
    + apply Hkeep. exact Hin.
    + apply Hkeep. exact Hin.
Qed.

Lemma handle_matcher_ok (e : Event) (s : State) :
  matcher_ok s -> matcher_ok (handle e s).
Proof.
  intros Hok.
  assert (Hcase : match e with StartRecognition => False | _ => True end \/
                  e = StartRecognition).
  { destruct e; auto. }
  destruct Hcase as [Hother | Hrec].
  - destruct (handle_matcher_frame e s Hother) as (Hm & Hl & Hc).
    unfold matcher_ok in *. rewrite Hm, Hl.
    destruct (faceMatcher s) as [m|]; [exact Hok|].
    apply existsb_false_In. intros c Hin.
    destruct (Hc c Hin) as [Hold | Hdet]; [|exact Hdet].
    exact (proj1 (existsb_false_In is_recognize (cycles s)) Hok c Hold).
  - subst e. simpl. unfold recognizeFaces.
    destruct (faceDescriptors s) as [|f fs] eqn:Hg.
    + exact Hok.
    + unfold matcher_ok, cycle_begin. simpl.
      destruct (videoStream s); simpl; (split; [|reflexivity]);
        exists (f :: fs); (split; [discriminate | reflexivity]).
Qed.

(** X7.  A matcher is built only from a non-empty gallery, and a
    [recognize] cycle is alive only when a matcher has been built.  On
    every page reached from the freshly loaded one: if there is no matcher
    no [recognize] cycle is registered or suspended; if there is one it is
    the matcher of some non-empty gallery (one descriptor per entry,
    threshold 0.6) and [labeledFaceDescriptors] holds its entries. *)
Theorem matcher_always_ok (es : list Event) (size : Size)
  (startB stopB captureB recognizeB : bool) :
  matcher_ok (run es (loaded_page size startB stopB captureB recognizeB)).
Proof.
  assert (Hrun : forall es s, matcher_ok s -> matcher_ok (run es s)).
  { clear es. induction es as [|e es IH]; intros s Hs; simpl.
    - exact Hs.
    - apply IH. apply handle_matcher_ok. exact Hs. }
  apply Hrun. reflexivity.
Qed.

Lemma matchAll_some (m : FaceMatcher) (detections : list Detection) :
  matchAll (Some m) detections
  = Some (map (fun d => findBestMatch m (detection_descriptor d)) detections).
Proof.
  destruct detections; reflexivity.
Qed.

(** X8.  A suspended [recognize] cycle always finds a matcher when it is
    resumed: [faceMatcher] is never [null] there.  When the promise is
    resolved and the library calls return, the cycle clears the canvas,
    draws one box per detection, in order, labelled with the best match of
    that detection's descriptor, lists the same results in the results
    panel (or "No faces detected."), and registers itself for the next
    frame.  When the promise is rejected or a library call throws, the
    cycle is gone and registers nothing: the results panel is untouched,
    and the canvas is untouched if the cycle ended before [clearRect] and
    empty if it ended after. *)
Theorem recognize_resumes_with_matcher (s : State) (k : nat) (displaySize : Size)
  (detections : list Detection) :
  matcher_ok s ->
  nth_error (inFlight s) k = Some (recognize displaySize) ->
  exists m,
    faceMatcher s = Some m /\
    (let s' := detectorReply k (answered detections) s in
     let best := fun d => findBestMatch m (detection_descriptor d) in
     frameCallbacks s' = frameCallbacks s ++ [recognize displaySize] /\
     canvas s' = map (fun d => DrawBox d displaySize (best d)) detections /\
     recognizedFacesDiv s'
     = Heading "Recognition Results:" ::
       match detections with
       | [] => [Paragraph "No faces detected."]
       | _ :: _ => map (fun d => ResultLine (best d)) detections
       end) /\
    (forall reply,
       faultless (DetectorReply k reply) = false ->
       let s' := detectorReply k reply s in
       frameCallbacks s' = frameCallbacks s /\
       inFlight s' = firstn k (inFlight s) ++ skipn (S k) (inFlight s) /\
       recognizedFacesDiv s' = recognizedFacesDiv s /\
       canvas s' = if reaches_clearRect reply then [] else canvas s).
Proof.
  intros Hok Hk. unfold matcher_ok in Hok.
  destruct (faceMatcher s) as [m|] eqn:Hm.
  2:{ exfalso. rewrite existsb_false_In in Hok.
      assert (Hin : In (recognize displaySize) (cycles s)).
      { unfold cycles. apply in_or_app. right. eapply nth_error_In. exact Hk. }
      specialize (Hok _ Hin). discriminate. }
  exists m. split; [reflexivity|]. split.
  - unfold detectorReply. rewrite Hk. rewrite recognize_resume_shape. simpl.
    rewrite Hm, matchAll_some. simpl. unfold resultBoxes.
    rewrite combine_map_self, map_map. simpl.
    split; [reflexivity|]. split; [reflexivity|].
    destruct detections as [|d ds]; simpl; [reflexivity|].
    rewrite map_map. reflexivity.
  - intros reply Hfault. unfold detectorReply. rewrite Hk.
    destruct reply as [|ds [resizes matches]]; [repeat split|].
    simpl in Hfault. unfold cycle_resume, recognize_rest. simpl.
    destruct resizes; [|repeat split].
    destruct matches; [discriminate|]. repeat split.
Qed.

Lemma recognize_resumes_with_matcher_witness :
  exists m,
    faceMatcher (recognizeFaces pageABC) = Some m /\
    frameCallbacks (detectorReply 1 (answered [seen dB]) (recognizeFaces pageABC))
    = [recognize vga].
Proof.
  assert (Hok : matcher_ok (recognizeFaces pageABC)).
  { vm_compute. split; [|reflexivity]. exists galleryABC.
    split; [discriminate | reflexivity]. }
  assert (Hk : nth_error (inFlight (recognizeFaces pageABC)) 1 = Some (recognize vga))
    by (vm_compute; reflexivity).
  destruct (recognize_resumes_with_matcher _ 1 vga [seen dB] Hok Hk)
    as (m & Hm & (Hfc & _) & _).
  exists m. split; [exact Hm | exact Hfc].
Defined.

(** ** How many loops run *)

Lemma recognize_resumes_with_matcher_aux (s : State) (k : nat) (displaySize : Size)
  (detections : list Detection) :
  matcher_ok s ->
  nth_error (inFlight s) k = Some (recognize displaySize) ->
  frameCallbacks (detectorReply k (answered detections) s)
  = frameCallbacks s ++ [recognize displaySize] /\
  inFlight (detectorReply k (answered detections) s)
  = firstn k (inFlight s) ++ skipn (S k) (inFlight s).
Proof.
  intros Hok Hk. unfold matcher_ok in Hok.
  destruct (faceMatcher s) as [m|] eqn:Hm.
  2:{ exfalso.
      assert (Hin : In (recognize displaySize) (cycles s)).
      { unfold cycles. apply in_or_app. right. eapply nth_error_In. exact Hk. }
      pose proof (proj1 (existsb_false_In is_recognize (cycles s)) Hok _ Hin) as Hc.
      discriminate. }
  unfold detectorReply. rewrite Hk. rewrite recognize_resume_shape. simpl.
  rewrite Hm, matchAll_some. simpl. split; reflexivity.
Qed.

Lemma passive_videoStream (e : Event) (s : State) :
  passive e = true -> videoStream (handle e s) = videoStream s.
Proof.
  destruct e as [| | | | | |k reply]; try discriminate; intros _; simpl.
  - rewrite animationFrame_shape. destruct (videoStream s) eqn:Hv; simpl; congruence.
  - unfold detectorReply. destruct (nth_error (inFlight s) k) as [c|]; [|reflexivity].
    rewrite cycle_resume_videoStream. reflexivity.
Qed.

Lemma passive_live_le (e : Event) (s : State) :
  passive e = true -> live (handle e s) <= live s.
Proof.
  unfold live.
  destruct e as [| | | | | |k reply]; try discriminate; intros _; simpl.
  - rewrite animationFrame_shape. destruct (videoStream s); simpl.
    + rewrite length_app. lia.
    + lia.
  - unfold detectorReply. destruct (nth_error (inFlight s) k) as [c|] eqn:Hk; [|lia].
    assert (Hlt : k < List.length (inFlight s)).
    { apply nth_error_Some. congruence. }
    pose proof (removeAt_length (inFlight s) k Hlt) as Hlen.
    remember (set_inFlight (firstn k (inFlight s) ++ skipn (S k) (inFlight s)) s) as t
      eqn:Ht.
    assert (Hfc : frameCallbacks t = frameCallbacks s) by (rewrite Ht; reflexivity).
    assert (Hfl : inFlight t = firstn k (inFlight s) ++ skipn (S k) (inFlight s))
      by (rewrite Ht; reflexivity).
    destruct (cycle_resume_cases c reply t)
      as [H | [H | [(d & ds & _ & H) | (d & ds & rs & _ & _ & H)]]];
      rewrite H;
      cbn [frameCallbacks inFlight requestAnimationFrame clearRect
           set_frameCallbacks set_canvas set_recognizedFacesDiv];
      rewrite Hfc, Hfl, Hlen, ?length_app; simpl; lia.
Qed.

Lemma passive_live_eq (e : Event) (s : State) :
  passive e = true -> faultless e = true -> videoStream s <> None -> matcher_ok s ->
  live (handle e s) = live s.
Proof.
  unfold live.
  destruct e as [| | | | | |k reply]; try discriminate;
    intros _ Hsound Halive Hok; simpl.
  - rewrite animationFrame_shape. destruct (videoStream s); [|congruence].
    simpl. rewrite length_app. lia.
  - destruct reply as [|detections [resizes matches]]; [discriminate|].
    simpl in Hsound. apply andb_prop in Hsound. destruct Hsound as [Hr Hm].
    simpl in Hr, Hm. subst resizes matches.
    change (resolved detections {| resizeResults_returns := true;
                                   findBestMatch_returns := true |})
      with (answered detections).
    destruct (nth_error (inFlight s) k) as [c|] eqn:Hk.
    2:{ unfold detectorReply. rewrite Hk. reflexivity. }
    assert (Hlt : k < List.length (inFlight s)).
    { apply nth_error_Some. congruence. }
    pose proof (removeAt_length (inFlight s) k Hlt) as Hlen.
    destruct c as [displaySize | displaySize].
    + unfold detectorReply. rewrite Hk.
      change (List.length (frameCallbacks s ++ [detect displaySize])
              + List.length (firstn k (inFlight s) ++ skipn (S k) (inFlight s))
              = List.length (frameCallbacks s) + List.length (inFlight s)).
      rewrite Hlen, length_app. simpl. lia.
    + destruct (recognize_resumes_with_matcher_aux s k displaySize detections Hok Hk)
        as (Hfc & Hfl).
      rewrite Hfc, Hfl, Hlen, length_app. simpl. lia.
Qed.

(** X9.  While the camera is on, frames and settled detector promises keep
    the stream and never add a loop: the number of cycles alive (registered
    or suspended) does not grow.  As long as the promises are resolved and
    the library calls of the resumed cycles return, it stays the same: no
    loop ends, and each click that started a loop keeps its loop running.
    A loop can end only where the library fails. *)
Theorem loops_persist_while_camera_on (es : list Event) (s : State) :
  forallb passive es = true -> videoStream s <> None -> matcher_ok s ->
  videoStream (run es s) = videoStream s /\
  live (run es s) <= live s /\
  (forallb faultless es = true -> live (run es s) = live s).
Proof.
  revert s. induction es as [|e es IH]; intros s Hes Halive Hok; simpl in *.
  - repeat split. lia.
  - apply andb_prop in Hes. destruct Hes as [He Hes].
    pose proof (passive_videoStream e s He) as Hv.
    pose proof (passive_live_le e s He) as Hle.
    destruct (IH (handle e s) Hes) as (Hv' & Hle' & Heq').
    + congruence.
    + apply handle_matcher_ok. exact Hok.
    + split; [congruence|]. split; [lia|].
      intros Hsound. apply andb_prop in Hsound. destruct Hsound as [Hs1 Hs2].
      rewrite (Heq' Hs2). apply passive_live_eq; assumption.
Qed.

Lemma loops_persist_while_camera_on_witness :
  live (run [AnimationFrame; DetectorReply 0 (answered [seen dA]);
             DetectorReply 0 (answered []); AnimationFrame;
             DetectorReply 5 (answered [])] (recognizeFaces pageABC)) = 2 /\
  live (run [DetectorReply 0 rejected] (recognizeFaces pageABC)) <= 2.
Proof.
  assert (Hok : matcher_ok (recognizeFaces pageABC)).
  { vm_compute. split; [|reflexivity]. exists galleryABC.
    split; [discriminate | reflexivity]. }
  assert (Halive : videoStream (recognizeFaces pageABC) <> None)
    by (vm_compute; discriminate).
  destruct (loops_persist_while_camera_on
              [AnimationFrame; DetectorReply 0 (answered [seen dA]);
               DetectorReply 0 (answered []); AnimationFrame;
               DetectorReply 5 (answered [])]
              (recognizeFaces pageABC) eq_refl Halive Hok) as (_ & _ & Heq).
  destruct (loops_persist_while_camera_on
              [DetectorReply 0 rejected]
              (recognizeFaces pageABC) eq_refl Halive Hok) as (_ & Hle & _).
  split.
  - rewrite (Heq eq_refl). vm_compute. reflexivity.
  - exact Hle.
Defined.

(** X10.  [stopCamera] cancels nothing: the registered callbacks and the
    suspended cycles are all still there after it, waiting for their
    liveness check.  If the camera is started again before they meet it
    they all go on, beside the new [detect] cycle, so one more loop runs
    than before the stop. *)
Theorem restart_keeps_old_loops (s : State) (stream : Stream) :
  frameCallbacks (stopCamera s) = frameCallbacks s /\
  inFlight (stopCamera s) = inFlight s /\
  let s' := startCamera (Some stream) (stopCamera s) in
  videoStream s' = Some stream /\
  frameCallbacks s' = frameCallbacks s /\
  inFlight s' = inFlight s ++ [detect (video_size s)] /\
  live s' = S (live s).
Proof.
  unfold live, stopCamera. destruct (videoStream s); simpl;
    repeat split; try reflexivity; rewrite length_app; simpl; lia.
Qed.

(** ** More on capture and delete *)

Lemma splice_start_bound (len : nat) (index : Z) :
  (index < Z.of_nat len)%Z -> 0 < len -> splice_start len index < len.
Proof.
  intros Hidx Hlen. unfold splice_start.
  destruct (Z.ltb_spec index 0); lia.
Qed.

(** X11.  [deleteFace] removes at most one entry and invents none.  On a
    non-empty gallery every index below the size, the negative ones
    included, removes exactly one entry; an index at or past the size, or
    an empty gallery, leaves the gallery as it is; and every entry that
    remains was there before. *)
Theorem deleteFace_removes_at_most_one (index : Z) (s : State) :
  let g := faceDescriptors s in
  let g' := faceDescriptors (deleteFace index s) in
  ((index < Z.of_nat (List.length g))%Z -> g <> [] ->
     S (List.length g') = List.length g) /\
  ((Z.of_nat (List.length g) <= index)%Z \/ g = [] -> g' = g) /\
  (forall e, In e g' -> In e g).
Proof.
  intros g g'. assert (Hg' : g' = splice1 index g) by reflexivity.
  rewrite Hg'. unfold splice1. split; [|split].
  - intros Hidx Hne.
    assert (Hlen : 0 < List.length g) by (destruct g; [congruence | simpl; lia]).
    pose proof (splice_start_bound _ _ Hidx Hlen) as Hst.
    rewrite (removeAt_length g _ Hst). lia.
  - intros [Hout | Hnil].
    + rewrite splice_start_beyond by exact Hout. apply removeAt_beyond. lia.
    + rewrite Hnil. rewrite firstn_nil, skipn_nil. reflexivity.
  - intros e Hin. eapply removeAt_In. exact Hin.
Qed.

Lemma deleteFace_removes_at_most_one_witness :
  List.length (faceDescriptors (deleteFace (-7) pageABC)) = 2 /\
  faceDescriptors (deleteFace 3 pageABC) = faceDescriptors pageABC.
Proof.
  destruct (deleteFace_removes_at_most_one (-7) pageABC) as (Hone & _ & _).
  destruct (deleteFace_removes_at_most_one 3 pageABC) as (_ & Hnone & _).
  split.
  - assert (H : S (List.length (faceDescriptors (deleteFace (-7) pageABC)))
                = List.length (faceDescriptors pageABC)).
    { apply Hone; vm_compute; [reflexivity | discriminate]. }
    replace (List.length (faceDescriptors pageABC)) with 3 in H by (vm_compute; reflexivity).
    lia.
  - apply Hnone. left. vm_compute. discriminate.
Defined.

Lemma splice1_last {A : Type} (l : list A) (x : A) :
  splice1 (Z.of_nat (List.length l)) (l ++ [x]) = l /\
  splice1 (-1) (l ++ [x]) = l.
Proof.
  assert (Hcut : firstn (List.length l) (l ++ [x])
                 ++ skipn (S (List.length l)) (l ++ [x]) = l).
  { rewrite skipn_all2 by (rewrite length_app; simpl; lia).
    rewrite firstn_app, firstn_all, Nat.sub_diag. simpl.
    rewrite !app_nil_r. reflexivity. }
  unfold splice1. rewrite length_app. simpl List.length. split.
  - rewrite splice_start_inside by lia. rewrite Nat2Z.id. exact Hcut.
  - rewrite splice_start_negative by lia.
    replace (Z.to_nat (Z.max (Z.of_nat (List.length l + 1) + -1) 0))
      with (List.length l) by lia.
    exact Hcut.
Qed.

(** X12.  Deleting the entry just captured undoes the capture: after a
    capture that stored a face, [deleteFace] on the last index (the old
    size, or -1) gives back the gallery as it was, with the panel and the
    recognize button that go with it. *)
Theorem capture_then_delete (faceName : string) (first : Detection)
  (others : list Detection) (s : State) :
  faceName <> "" ->
  let t := captureFace (Some faceName) (first :: others) s in
  let n := Z.of_nat (List.length (faceDescriptors s)) in
  faceDescriptors (deleteFace n t) = faceDescriptors s /\
  faceDescriptors (deleteFace (-1) t) = faceDescriptors s /\
  faceDescriptorsDiv (deleteFace n t)
  = faceDescriptorsDiv (updateFaceDescriptorsDisplay s) /\
  recognizerBtn_disabled (deleteFace n t)
  = Nat.eqb (List.length (faceDescriptors s)) 0.
Proof.
  intros Hne t n.
  set (entry := {| name := faceName; descriptor := detection_descriptor first |}).
  assert (Ht : faceDescriptors t = faceDescriptors s ++ [entry]).
  { subst t. destruct faceName as [|c rest]; [congruence | reflexivity]. }
  destruct (splice1_last (faceDescriptors s) entry) as [Hlast Hminus].
  assert (Hgal : forall i, faceDescriptors (deleteFace i t)
                           = splice1 i (faceDescriptors s ++ [entry])).
  { intros i. rewrite <- Ht. reflexivity. }
  assert (Hpanel : forall i, faceDescriptorsDiv (deleteFace i t)
                   = Heading "Stored Faces:" ::
                     match faceDescriptors (deleteFace i t) with
                     | [] => [Paragraph "No faces stored yet."]
                     | _ :: _ => faceBoxes 0 (faceDescriptors (deleteFace i t))
                     end) by reflexivity.
  assert (Hbtn : forall i, recognizerBtn_disabled (deleteFace i t)
                 = Nat.eqb (List.length (faceDescriptors (deleteFace i t))) 0)
    by reflexivity.
  rewrite Hbtn, Hpanel, !Hgal. subst n. rewrite Hlast, Hminus.
  repeat split.
Qed.

Lemma capture_then_delete_witness :
  faceDescriptors (deleteFace 3 (captureFace (Some "D") [seen dA] pageABC))
  = faceDescriptors pageABC.
Proof.
  assert (Hne : "D" <> "") by discriminate.
  destruct (capture_then_delete "D" (seen dA) [] pageABC Hne) as (H & _).
  replace (Z.of_nat (List.length (faceDescriptors pageABC))) with 3%Z in H
    by (vm_compute; reflexivity).
  exact H.
Defined.

(** ** Start-up and the camera *)

(** X13.  Loading the models touches only the console and the alerts.  A
    failed load is reported by one alert and one console line and does not
    stop the initialisation: "App initialized" is logged either way, and no
    control is disabled, no global changed. *)
Theorem init_only_logs (loaded : bool) (s : State) :
  init loaded s
  = set_alerts
      (alerts s ++
       (if loaded then []
        else ["Error loading face detection models. Please check console for details."]))
      (set_console
         (console s ++
          ["Initializing face recognition app...";
           if loaded then "Models loaded successfully" else "Error loading models:";
           "App initialized"]) s).
Proof.
  destruct s, loaded; unfold init, loadModels, alert, console_log; simpl;
    rewrite <- ?app_assoc, ?app_nil_r; reflexivity.
Qed.

(** X14.  Whatever the page looked like, a successful [startCamera] and a
    [stopCamera] on a held stream leave the video element and the three
    camera buttons in agreement with the stream.  A refused camera changes
    none of them: it raises one alert and the page stays in its mode. *)
Theorem camera_actions_set_controls (s : State) :
  (forall stream, camera_consistent (startCamera (Some stream) s) /\
                  videoStream (startCamera (Some stream) s) = Some stream /\
                  canvas (startCamera (Some stream) s) = [] /\
                  canvas_size (startCamera (Some stream) s) = video_size s) /\
  (videoStream s <> None ->
     camera_consistent (stopCamera s) /\ canvas (stopCamera s) = [] /\
     exists stream, videoStream s = Some stream /\
                    stoppedTracks (stopCamera s) = stoppedTracks s ++ [stream]) /\
  (let s' := startCamera None s in
   alerts s'
   = alerts s ++ ["Could not access the camera. Please ensure you have granted permissions."]
   /\ mode s' = mode s /\ videoStream s' = videoStream s /\
   startCameraBtn_disabled s' = startCameraBtn_disabled s /\
   stopCameraBtn_disabled s' = stopCameraBtn_disabled s /\
   captureFaceBtn_disabled s' = captureFaceBtn_disabled s).
Proof.
  split; [|split].
  - intros stream. repeat split.
  - intros Halive. unfold stopCamera, camera_consistent.
    destruct (videoStream s) as [stream|]; [|congruence].
    simpl. repeat split. exists stream. split; reflexivity.
  - repeat split.
Qed.

Lemma camera_actions_set_controls_witness :
  camera_consistent (stopCamera pageABC).
Proof.
  destruct (camera_actions_set_controls pageABC) as (_ & Hstop & _).
  apply Hstop. vm_compute. discriminate.
Defined.

(** ** What is on the canvas *)

(** X15.  A resumed cycle that gets as far as [clearRect] clears the
    canvas before it draws, so the canvas after it holds that cycle's
    drawings only, whatever had been drawn before: a [detect] cycle leaves
    exactly its two overlays, and no cycle leaves more than two drawings or
    one per detection.  When a [detect] and a [recognize] loop run
    together, each frame of one wipes what the other drew.  A cycle that
    ends before [clearRect] (rejected promise, [resizeResults] throwing)
    leaves the whole page as it was. *)
Theorem cycle_redraws_from_scratch (c : Cycle) (reply : Reply)
  (s : State) (drawn : list Drawing) :
  (reaches_clearRect reply = true ->
     canvas (cycle_resume c reply (set_canvas drawn s))
     = canvas (cycle_resume c reply s)) /\
  (reaches_clearRect reply = false -> cycle_resume c reply s = s) /\
  (forall displaySize detections,
      canvas (cycle_resume (detect displaySize) (answered detections) s)
      = [DrawDetections detections displaySize;
         DrawFaceLandmarks detections displaySize]) /\
  (forall detections lib,
      reply = resolved detections lib -> resizeResults_returns lib = true ->
      List.length (canvas (cycle_resume c reply s))
      <= Nat.max 2 (List.length detections)).
Proof.
  split; [|split; [|split]].
  - intros Hclear. destruct reply as [|detections [resizes matches]]; [discriminate|].
    simpl in Hclear. subst resizes.
    destruct c as [displaySize | displaySize]; [reflexivity|].
    simpl. unfold recognize_rest. simpl.
    destruct matches; [|reflexivity].
    destruct (matchAll (faceMatcher s) detections); [|reflexivity].
    rewrite !drawBoxes_canvas. reflexivity.
  - intros Hclear. destruct reply as [|detections [resizes matches]]; [reflexivity|].
    simpl in Hclear. subst resizes.
    destruct c as [displaySize | displaySize]; reflexivity.
  - intros displaySize detections. reflexivity.
  - intros detections [resizes matches] Hreply Hresizes. subst reply.
    simpl in Hresizes. subst resizes.
    destruct c as [displaySize | displaySize]; [apply Nat.le_max_l|].
    simpl. unfold recognize_rest. simpl.
    destruct matches; [|apply Nat.le_0_l].
    destruct (faceMatcher s) as [m|].
    + rewrite matchAll_some, drawBoxes_canvas.
      change (List.length
                (resultBoxes displaySize
                   (combine detections
                      (map (fun d => findBestMatch m (detection_descriptor d)) detections)))
              <= Nat.max 2 (List.length detections)).
      unfold resultBoxes. rewrite combine_map_self, !length_map. apply Nat.le_max_r.
    + destruct detections; apply Nat.le_0_l.
Qed.

Lemma cycle_redraws_from_scratch_witness :
  canvas (cycle_resume (detect vga) (answered [seen dA])
            (set_canvas [DrawDetections [] vga] pageLive))
  = canvas (cycle_resume (detect vga) (answered [seen dA]) pageLive) /\
  cycle_resume (recognize vga) rejected pageLive = pageLive.
Proof.
  destruct (cycle_redraws_from_scratch (detect vga) (answered [seen dA]) pageLive
              [DrawDetections [] vga]) as (Hclear & _).
  destruct (cycle_redraws_from_scratch (recognize vga) rejected pageLive [])
    as (_ & Hkept & _).
  split; [apply Hclear; reflexivity | apply Hkept; reflexivity].
Defined.
